(** * go_backend_bank: the account store and its HTTP handlers

    A shallow embedding of the Go sources

    - the account and request structs and [NewAccount],
    - the [Storage] interface and its PostgreSQL implementation
      ([PostgresStorage]), and
    - the handlers of [Apiserver] (main.go),

    followed by the properties of the account store that the
    specification states.

    Modelling conventions.

    - Go's [int] and the INT / SERIAL columns are [Z]; the code does no
      arithmetic on them (only the [accounts_id_seq] sequence counts), and
      the values in play are taken to fit their columns.
    - A Go [string] is a [string]; [error] is an inductive type whose
      [Error] gives the text of [err.Error()]; a [nil] error is [None].
    - The database behind [*sql.DB] is the [accounts] table in heap order
      together with the sequence that feeds its SERIAL column.  The server
      is taken to be reachable: an operation fails only for the reasons the
      schema gives (PRIMARY KEY, UNIQUE) or because a row is absent.
    - A method that writes through a pointer returns the new value: the
      store after the statement, the account after [Scan(&a.ID)].
    - bcrypt and the token functions are interfaces; the random salt that
      [bcrypt.GenerateFromPassword] draws is an explicit argument.
    - The router ([Run]), the set-up of the connection
      ([NewPostgresStorage], [Close]) and what the code prints to stdout are
      outside the embedding; [ProtectedHandler] takes the Authorization
      header of the request as an argument. *)

From Stdlib Require Import ZArith List String Ascii Bool Lia.
Import ListNotations.
Local Open Scope string_scope.
Local Open Scope Z_scope.

Set Implicit Arguments.

(** ** Errors *)

Inductive error : Type :=
| ErrNoRows                                  (* sql.ErrNoRows *)
| PqError (code : string) (message : string) (* *pq.Error *)
| Errorf (message : string)                  (* fmt.Errorf(...) *)
| Foreign (message : string).                (* bcrypt, json, strconv, jwt *)

Definition dquote : string := String (ascii_of_nat 34) EmptyString.

(** [err.Error()] *)
Definition Error (err : error) : string :=
  match err with
  | ErrNoRows => "sql: no rows in result set"
  | PqError _ message => "pq: " ++ message
  | Errorf message => message
  | Foreign message => message
  end.

(** SQLSTATE 23505, raised by a PRIMARY KEY or UNIQUE index. *)
Definition unique_violation (constraint : string) : error :=
  PqError "23505"
    ("duplicate key value violates unique constraint "
       ++ dquote ++ constraint ++ dquote).

(** ** Request and entity structs (types.go) *)

Module CreateAccountRequest.
Record t : Type := Build
  { Email : string; Password : string; Name : string; Number : string;
    Balance : Z }.
End CreateAccountRequest.

Module LoginRequest.
Record t : Type := Build { Email : string; Password : string }.
End LoginRequest.

Record account : Type :=
  { Email : string; Password : string; ID : Z; Name : string;
    Number : string; Balance : Z }.

(** [&account{}] : every field at its zero value. *)
Definition account_zero : account :=
  {| Email := ""; Password := ""; ID := 0; Name := ""; Number := "";
     Balance := 0 |}.

(** ** golang.org/x/crypto/bcrypt *)

Module bcrypt.
(** The two library calls the repository makes.  [salt] stands for the
    bytes [GenerateFromPassword] reads from crypto/rand. *)
Class API : Type :=
  { GenerateFromPassword : string -> string -> Z -> error + string;
    CompareHashAndPassword : string -> string -> option error }.

Definition DefaultCost : Z := 10.

(** What the library promises and the store relies on. *)

(** A password verifies against every hash generated from it. *)
Definition round_trip {H : API} : Prop :=
  forall salt pw cost h,
    GenerateFromPassword salt pw cost = inr h ->
    CompareHashAndPassword h pw = None.

(** A hash is never the secret it was made from: the idealisation of a
    one-way hash under which the store's secrets are read. *)
Definition never_plaintext {H : API} : Prop :=
  forall salt pw cost h,
    GenerateFromPassword salt pw cost = inr h -> h <> pw.
End bcrypt.

(** [NewAccount] creates a new account instance. *)
Definition NewAccount {B : bcrypt.API} (salt : string)
    (email password name number : string) (balance : Z) : error + account :=
  match bcrypt.GenerateFromPassword salt password bcrypt.DefaultCost with
  | inl err => inl err
  | inr hashedPassword =>
      inr {| Email := email; Password := hashedPassword; ID := 0;
             Name := name; Number := number; Balance := balance |}
  end.

(** ** The database: table [accounts] *)

(** One row of
    [accounts (id SERIAL PRIMARY KEY, email TEXT UNIQUE NOT NULL,
               password TEXT NOT NULL, name TEXT, number TEXT, balance INT)].
    The code binds Go strings and ints only, so no column is ever NULL. *)
Record row : Type :=
  { r_id : Z; r_email : string; r_password : string; r_name : string;
    r_number : string; r_balance : Z }.

(** The handle [db *sql.DB] of [PostgresStorage], as the data it reaches. *)
Record PostgresStorage : Type :=
  { accounts : list row;
    accounts_id_seq : Z (* the value the next nextval() hands out *) }.

Module sql.
(** [QueryRow(... WHERE p).Scan(...)]: the first matching row, or
    [sql.ErrNoRows]. *)
Definition QueryRow (p : row -> bool) (t : list row) : error + row :=
  match find p t with
  | Some r => inr r
  | None => inl ErrNoRows
  end.

Definition by_id (id : Z) (r : row) : bool := r_id r =? id.
Definition by_email (e : string) (r : row) : bool := (r_email r =? e)%string.
End sql.

(** The four columns [SELECT id, name, number, balance] scanned into a
    fresh [&account{}]. *)
Definition scan_account (r : row) : account :=
  {| Email := Email account_zero; Password := Password account_zero;
     ID := r_id r; Name := r_name r; Number := r_number r;
     Balance := r_balance r |}.

(** ** The Storage interface *)

Module Storage.
Class t (S : Type) : Type :=
  { CheckAuth : S -> string -> string -> option error;
    CreateAccount : S -> account -> S * account * option error;
    DeleteAccount : S -> Z -> S * option error;
    UpdateAccount : S -> account -> S * option error;
    GetAccountByID : S -> Z -> account * option error;
    (* a nil slice is [None] *)
    GetUsers : S -> option (list account) * option error }.
End Storage.

(** ** PostgresStorage *)

Module PostgresStorage.

(** [Init]: CREATE TABLE IF NOT EXISTS, on a database that has the table
    ([Some]) or not ([None]). *)
Definition Init (d : option PostgresStorage) : PostgresStorage * option error :=
  match d with
  | Some s => (s, None)
  | None => ({| accounts := []; accounts_id_seq := 1 |}, None)
  end.

(** [CreateAccount] inserts a new account into the database.  The
    default of [id] takes the next sequence value, also when the row is
    then refused by an index; on success [RETURNING id] is scanned into
    [a.ID]. *)
Definition CreateAccount (s : PostgresStorage) (a : account)
  : PostgresStorage * account * option error :=
  let id := accounts_id_seq s in
  let s1 := {| accounts := accounts s; accounts_id_seq := id + 1 |} in
  if existsb (sql.by_id id) (accounts s) then
    (s1, a, Some (unique_violation "accounts_pkey"))
  else if existsb (sql.by_email (Email a)) (accounts s) then
    (s1, a, Some (unique_violation "accounts_email_key"))
  else
    ({| accounts :=
          accounts s ++
            [{| r_id := id; r_email := Email a; r_password := Password a;
                r_name := Name a; r_number := Number a;
                r_balance := Balance a |}];
        accounts_id_seq := id + 1 |},
     {| Email := Email a; Password := Password a; ID := id;
        Name := Name a; Number := Number a; Balance := Balance a |},
     None).

(** [CheckAuth] checks if the provided email and password match the
    stored account. *)
Definition CheckAuth {B : bcrypt.API} (s : PostgresStorage)
    (email password : string) : option error :=
  match sql.QueryRow (sql.by_email email) (accounts s) with
  | inl err => Some (Errorf ("authentication failed: " ++ Error err))
  | inr r =>
      match bcrypt.CompareHashAndPassword (r_password r) password with
      | Some _ => Some (Errorf "authentication failed: incorrect password")
      | None => None
      end
  end.

Definition GetUsers (s : PostgresStorage)
  : option (list account) * option error :=
  (Some (map scan_account (accounts s)), None).

(** [DeleteAccount] deletes an account from the database by its ID.
    [Exec] reports no error when the statement matches no row. *)
Definition DeleteAccount (s : PostgresStorage) (id : Z)
  : PostgresStorage * option error :=
  ({| accounts := filter (fun r => negb (sql.by_id id r)) (accounts s);
      accounts_id_seq := accounts_id_seq s |},
   None).

(** [UpdateAccount] updates an existing account in the database. *)
Definition UpdateAccount (s : PostgresStorage) (a : account)
  : PostgresStorage * option error :=
  ({| accounts :=
        map (fun r =>
               if sql.by_id (ID a) r then
                 {| r_id := r_id r; r_email := r_email r;
                    r_password := r_password r; r_name := Name a;
                    r_number := Number a; r_balance := Balance a |}
               else r)
            (accounts s);
      accounts_id_seq := accounts_id_seq s |},
   None).

(** [GetAccountByID] retrieves an account from the database by its ID.
    The account is returned next to the error, zero when no row was
    scanned. *)
Definition GetAccountByID (s : PostgresStorage) (id : Z)
  : account * option error :=
  match sql.QueryRow (sql.by_id id) (accounts s) with
  | inl err => (account_zero, Some err)
  | inr r => (scan_account r, None)
  end.

End PostgresStorage.

#[export] Instance PostgresStorage_Storage {B : bcrypt.API}
  : Storage.t PostgresStorage :=
  {| Storage.CheckAuth := PostgresStorage.CheckAuth;
     Storage.CreateAccount := PostgresStorage.CreateAccount;
     Storage.DeleteAccount := PostgresStorage.DeleteAccount;
     Storage.UpdateAccount := PostgresStorage.UpdateAccount;
     Storage.GetAccountByID := PostgresStorage.GetAccountByID;
     Storage.GetUsers := PostgresStorage.GetUsers |}.

(** ** net/http: the response a handler builds *)

Definition StatusOK : Z := 200.
Definition StatusBadRequest : Z := 400.
Definition StatusUnauthorized : Z := 401.

(** The values the handlers hand to [writeJSON] (its [v any]). *)
Inductive value : Type :=
| V_account (a : account)                               (* *account *)
| V_accounts (l : option (list account))                (* []*account *)
| V_CreateAccountRequest (r : CreateAccountRequest.t)
| V_ApiError (Error : string)                           (* ApiError{Error} *)
| V_error (err : option error)                          (* an error value *)
| V_map (m : list (string * string)).                   (* map[string]string *)

Inductive chunk : Type :=
| Text (s : string)   (* fmt.Fprint(w, s) *)
| JSON (v : value).   (* json.NewEncoder(w).Encode(v) *)

(** What has gone to the client: the header and status line once they are
    sent, and the body written so far. *)
Record ResponseWriter : Type :=
  { header : list (string * string); status : option Z; body : list chunk }.

Definition NewResponseWriter : ResponseWriter :=
  {| header := []; status := None; body := [] |}.

(** [w.Header().Add(k, v)]: without effect on the wire once the header is
    sent. *)
Definition Header_Add (w : ResponseWriter) (k v : string) : ResponseWriter :=
  match status w with
  | None => {| header := header w ++ [(k, v)]; status := None; body := body w |}
  | Some _ => w
  end.

(** [w.WriteHeader(code)]: only the first call counts. *)
Definition WriteHeader (w : ResponseWriter) (code : Z) : ResponseWriter :=
  match status w with
  | None => {| header := header w; status := Some code; body := body w |}
  | Some _ => w
  end.

(** [w.Write]: sends the header with 200 if none was sent yet. *)
Definition Write (w : ResponseWriter) (c : chunk) : ResponseWriter :=
  let w := WriteHeader w StatusOK in
  {| header := header w; status := status w; body := body w ++ [c] |}.

Definition Fprint (w : ResponseWriter) (s : string) : ResponseWriter :=
  Write w (Text s).

(** [writeJSON] writes a JSON response to the ResponseWriter. *)
Definition writeJSON (w : ResponseWriter) (status : Z) (v : value)
  : ResponseWriter * option error :=
  let w := Header_Add w "Content-Type" "application/json" in
  let w := WriteHeader w status in
  (Write w (JSON v), None).

(** The request as the router and the decoders deliver it: the method, the
    outcome of [strconv.Atoi(mux.Vars(r)["id"])] and the outcome of
    [json.NewDecoder(r.Body).Decode] into the struct [B] of the handler. *)
Record Request (B : Type) : Type :=
  { Method : string; Vars_id : error + Z; Body : error + B }.

(** [CreateToken] is declared in a file of the repository that is not among
    the sources; it is a parameter of the handlers: the token string and the
    error it returns for an email. *)
Class TokenService : Type :=
  { CreateToken : string -> string * option error }.

(** ** Apiserver *)

(** [Apiserver] holds the server's address and a storage interface. *)
Record Apiserver (S : Type) : Type :=
  { listenAddress : string; store : S }.

(** A handler returns the server (its store may have changed), the response
    and its error. *)
Definition apiFunc (S B : Type) : Type :=
  Apiserver S -> ResponseWriter -> Request B ->
  Apiserver S * ResponseWriter * option error.

Section Handlers.
Context {S : Type} {St : Storage.t S} {B : bcrypt.API} {T : TokenService}.

Definition with_store (s : Apiserver S) (st : S) : Apiserver S :=
  {| listenAddress := listenAddress s; store := st |}.

Definition handleLogin : apiFunc S LoginRequest.t := fun s w r =>
  match Body r with
  | inl err => (s, w, Some err)
  | inr loginRequest =>
      match Storage.CheckAuth (store s) (LoginRequest.Email loginRequest)
              (LoginRequest.Password loginRequest) with
      | Some err =>
          let (w, e) := writeJSON w StatusUnauthorized (V_ApiError (Error err)) in
          (s, w, e)
      | None =>
          (* a failure of CreateToken is only printed to stdout *)
          let (tokenString, _) := CreateToken (LoginRequest.Email loginRequest) in
          let w := WriteHeader w StatusOK in
          let w := Fprint w tokenString in
          let (w, e) :=
            writeJSON w StatusOK (V_map [("message", "login successful")]) in
          (s, w, e)
      end
  end.

(** [handleDeleteAccount] handles DELETE requests to delete an account. *)
Definition handleDeleteAccount {R : Type} : apiFunc S R := fun s w r =>
  match Vars_id r with
  | inl err => (s, w, Some err)
  | inr id =>
      let (st, users) := Storage.DeleteAccount (store s) id in
      let (w, e) := writeJSON w StatusOK (V_error users) in
      (with_store s st, w, e)
  end.

(** [handleGetAccountById] handles GET requests to retrieve account
    information; any other method deletes. *)
Definition handleGetAccountById {R : Type} : apiFunc S R := fun s w r =>
  if (Method r =? "GET")%string then
    match Vars_id r with
    | inl err => (s, w, Some err)
    | inr id =>
        match Storage.GetAccountByID (store s) id with
        | (_, Some err) => (s, w, Some err)
        | (users, None) =>
            let (w, e) := writeJSON w StatusOK (V_account users) in
            (s, w, e)
        end
    end
  else
    let '(s, w, _) := handleDeleteAccount s w r in
    (s, w, None).

(** get all users *)
Definition handleGetUsers {R : Type} : apiFunc S R := fun s w r =>
  match Storage.GetUsers (store s) with
  | (_, Some err) => (s, w, Some err)
  | (users, None) =>
      let (w, e) := writeJSON w StatusOK (V_accounts users) in
      (s, w, e)
  end.

(** [handleCreateAccount] handles POST requests to create a new account. *)
Definition handleCreateAccount (salt : string)
  : apiFunc S CreateAccountRequest.t := fun s w r =>
  match Body r with
  | inl err => (s, w, Some err)
  | inr CreateAccountReq =>
      match NewAccount salt (CreateAccountRequest.Email CreateAccountReq)
              (CreateAccountRequest.Password CreateAccountReq)
              (CreateAccountRequest.Name CreateAccountReq)
              (CreateAccountRequest.Number CreateAccountReq)
              (CreateAccountRequest.Balance CreateAccountReq) with
      | inl err => (s, w, Some err)
      | inr acc =>
          match Storage.CreateAccount (store s) acc with
          | (st, _, Some err) => (with_store s st, w, Some err)
          | (st, _, None) =>
              let (w, e) :=
                writeJSON w StatusOK (V_CreateAccountRequest CreateAccountReq) in
              (with_store s st, w, e)
          end
      end
  end.

(** [handleTransfer] handles POST requests to transfer funds between
    accounts. *)
Definition handleTransfer {R : Type} : apiFunc S R := fun s w r =>
  (s, w, None).

(** [makeHandler] wraps an apiFunc: an error becomes a 400 response. *)
Definition makeHandler {R : Type} (fn : apiFunc S R)
  : Apiserver S -> ResponseWriter -> Request R -> Apiserver S * ResponseWriter :=
  fun s w r =>
    match fn s w r with
    | (s, w, Some err) =>
        (s, fst (writeJSON w StatusBadRequest (V_ApiError (Error err))))
    | (s, w, None) => (s, w)
    end.

End Handlers.

(** ** Running the model *)

(** A stand-in for bcrypt on which the model can be evaluated: the hash of
    a password is the password behind a version marker.  It keeps the two
    laws above and nothing else of bcrypt. *)
Definition marker_hasher : bcrypt.API :=
  {| bcrypt.GenerateFromPassword := fun _ pw _ => inr ("$2a$" ++ pw)%string;
     bcrypt.CompareHashAndPassword := fun h pw =>
       if (h =? "$2a$" ++ pw)%string then None
       else Some (Foreign
         "crypto/bcrypt: hashedPassword is not the hash of the given password")
  |}.

(** A token service that hands out the email behind a prefix. *)
Definition prefix_tokens : TokenService :=
  {| CreateToken := fun email => ("token:" ++ email, None)%string |}.

(** The request of the specification's example scenario. *)
Definition example_request : CreateAccountRequest.t :=
  CreateAccountRequest.Build "a@x.com" "secret" "A" "001" 100.

(** The store right after [Init] on a database without the table. *)
Definition fresh_store : PostgresStorage :=
  fst (PostgresStorage.Init None).

(** The row [CreateAccount] inserts for [a] under the id [id]. *)
Definition inserted (id : Z) (a : account) : row :=
  {| r_id := id; r_email := Email a; r_password := Password a;
     r_name := Name a; r_number := Number a; r_balance := Balance a |}.

(** [strconv.Atoi] of the empty string, which is what [mux.Vars(r)["id"]]
    is on a route that binds no id. *)
Definition Atoi_empty : error :=
  Foreign ("strconv.Atoi: parsing " ++ dquote ++ dquote ++ ": invalid syntax").

(** The login request the decoder delivers for an email and a password. *)
Definition login (email password : string) : Request LoginRequest.t :=
  {| Method := "POST"; Vars_id := inl Atoi_empty;
     Body := inr (LoginRequest.Build email password) |}.

(** The request the decoder delivers for a create-account body. *)
Definition create (req : CreateAccountRequest.t)
  : Request CreateAccountRequest.t :=
  {| Method := "POST"; Vars_id := inl Atoi_empty; Body := inr req |}.

(** A request on the route /account/{id}, which carries no body. *)
Definition on_account (method : string) (id : Z) : Request unit :=
  {| Method := method; Vars_id := inr id; Body := inr tt |}.

(** The response of the server on a store to a request, through a handler. *)
Definition respond {S R : Type} (fn : apiFunc S R) (st : S) (r : Request R)
  : ResponseWriter :=
  snd (fst (fn {| listenAddress := ":3000"; store := st |} NewResponseWriter r)).

(** The 401 that carries an error text. *)
Definition unauthorized (message : string) : ResponseWriter :=
  {| header := [("Content-Type", "application/json")];
     status := Some StatusUnauthorized;
     body := [JSON (V_ApiError message)] |}.

(** The 200 that carries a JSON value. *)
Definition ok (v : value) : ResponseWriter :=
  {| header := [("Content-Type", "application/json")];
     status := Some StatusOK; body := [JSON v] |}.

(** The store of the example scenario after its registration. *)
Definition example_store : PostgresStorage :=
  {| accounts :=
       [{| r_id := 1; r_email := "a@x.com"; r_password := "$2a$secret";
           r_name := "A"; r_number := "001"; r_balance := 100 |}];
     accounts_id_seq := 2 |}.

(** ** Stores the operations can reach *)

Inductive reachable : PostgresStorage -> Prop :=
| reach_Init : reachable fresh_store
| reach_CreateAccount s a :
    reachable s -> reachable (fst (fst (PostgresStorage.CreateAccount s a)))
| reach_DeleteAccount s id :
    reachable s -> reachable (fst (PostgresStorage.DeleteAccount s id))
| reach_UpdateAccount s a :
    reachable s -> reachable (fst (PostgresStorage.UpdateAccount s a)).

(** The key constraints of the schema, and the sequence ahead of every id. *)
Record consistent (s : PostgresStorage) : Prop :=
  { emails_unique : NoDup (map r_email (accounts s));
    ids_unique : NoDup (map r_id (accounts s));
    ids_below_seq : Forall (fun r => r_id r < accounts_id_seq s) (accounts s) }.

(** The number of accounts that carry an email. *)
Definition count_email (e : string) (s : PostgresStorage) : nat :=
  List.length (filter (sql.by_email e) (accounts s)).

(** ** The remaining handlers of main.go *)

(** [handleAccount] handles requests to the /account endpoint based on the
    HTTP method. *)
Definition handleAccount {S : Type} {St : Storage.t S} {B : bcrypt.API}
    (salt : string) : apiFunc S CreateAccountRequest.t := fun s w r =>
  if (Method r =? "GET")%string then handleGetAccountById s w r
  else if (Method r =? "POST")%string then handleCreateAccount salt s w r
  else (s, w, Some (Errorf "unsupported method")).

(** [verifyToken] is declared next to [CreateToken], in a file that is not
    among the sources; it is a parameter of [ProtectedHandler]: the error it
    returns for a token string. *)
Class TokenVerifier : Type :=
  { verifyToken : string -> option error }.

(** [w.Header().Set(k, v)]: replaces what the header holds under [k]. *)
Definition Header_Set (w : ResponseWriter) (k v : string) : ResponseWriter :=
  match status w with
  | None =>
      {| header :=
           filter (fun kv => negb (fst kv =? k)%string) (header w) ++ [(k, v)];
         status := None; body := body w |}
  | Some _ => w
  end.

(** [s[n:]] on a string that has at least [n] bytes. *)
Fixpoint string_drop (n : nat) (s : string) : string :=
  match n, s with
  | O, _ => s
  | S n, String _ s => string_drop n s
  | S _, EmptyString => EmptyString
  end.

(** What serving a request through a wrapper comes to: the server and the
    response, or a run-time panic of the handler goroutine. *)
Inductive served (S : Type) : Type :=
| Responded (s : Apiserver S) (w : ResponseWriter)
| Panicked.
Arguments Panicked {S}.

(** [ProtectedHandler]; [authHeader] is [r.Header.Get("Authorization")].
    The slice expression [authHeader[len("Bearer "):]] panics on a header
    shorter than the seven bytes of "Bearer ". *)
Definition ProtectedHandler {S R : Type} {V : TokenVerifier}
    (fn : apiFunc S R) (authHeader : string)
  : Apiserver S -> ResponseWriter -> Request R -> served S :=
  fun s w r =>
    let w := Header_Set w "Content-Type" "application/json" in
    if (authHeader =? "")%string then
      let w := WriteHeader w StatusUnauthorized in
      Responded s (Fprint w "Missing authorization header")
    else if (String.length authHeader <? String.length "Bearer ")%nat then
      Panicked
    else
      let tokenString := string_drop (String.length "Bearer ") authHeader in
      match verifyToken tokenString with
      | Some err =>
          let w := WriteHeader w StatusUnauthorized in
          Responded s (Fprint w ("Invalid token: " ++ Error err))
      | None =>
          match fn s w r with
          | (s, w, Some err) =>
              Responded s
                (fst (writeJSON w StatusBadRequest (V_ApiError (Error err))))
          | (s, w, None) => Responded s w
          end
      end.


(** ** Histories of the store *)

(** The statements that change the table, and a store after a list of
    them. *)
Inductive op : Type :=
| OpCreateAccount (a : account)
| OpDeleteAccount (id : Z)
| OpUpdateAccount (a : account).

Definition step (s : PostgresStorage) (o : op) : PostgresStorage :=
  match o with
  | OpCreateAccount a => fst (fst (PostgresStorage.CreateAccount s a))
  | OpDeleteAccount id => fst (PostgresStorage.DeleteAccount s id)
  | OpUpdateAccount a => fst (PostgresStorage.UpdateAccount s a)
  end.

Definition run (ops : list op) (s : PostgresStorage) : PostgresStorage :=
  fold_left step ops s.

(** A verifier that accepts the tokens of [prefix_tokens] and nothing
    else. *)
Definition prefix_verifier : TokenVerifier :=
  {| verifyToken := fun t =>
       if String.prefix "token:" t then None
       else Some (Foreign "token is malformed") |}.

(** * Properties *)

(** ** Lists and strings *)

Lemma existsb_false_In {A} (p : A -> bool) (l : list A) :
  existsb p l = false -> forall x, In x l -> p x = false.
Proof.
  induction l as [|y l IH]; simpl; intros H x Hx; [contradiction|].
  apply orb_false_iff in H as [Hy Hl].
  destruct Hx as [<-|Hx]; auto.
Qed.

Lemma existsb_false_find {A} (p : A -> bool) (l : list A) :
  existsb p l = false -> find p l = None.
Proof.
  induction l as [|y l IH]; simpl; intros H; [reflexivity|].
  apply orb_false_iff in H as [Hy Hl]. rewrite Hy. auto.
Qed.

Lemma find_app_last {A} (p : A -> bool) (l : list A) x :
  find p l = None -> p x = true -> find p (l ++ [x]) = Some x.
Proof.
  induction l as [|y l IH]; simpl; intros H Hp.
  - now rewrite Hp.
  - destruct (p y); [discriminate | auto].
Qed.

Lemma find_filter_negb {A} (p : A -> bool) (l : list A) :
  find p (filter (fun x => negb (p x)) l) = None.
Proof.
  induction l as [|y l IH]; simpl; [reflexivity|].
  destruct (p y) eqn:E; simpl; [assumption | now rewrite E].
Qed.

Lemma filter_all {A} (p : A -> bool) (l : list A) :
  (forall x, In x l -> p x = true) -> filter p l = l.
Proof.
  induction l as [|y l IH]; simpl; intros H; [reflexivity|].
  rewrite (H y (or_introl eq_refl)). f_equal. auto.
Qed.

Lemma NoDup_snoc {A} (l : list A) x :
  NoDup l -> ~ In x l -> NoDup (l ++ [x]).
Proof.
  intros Hl Hx. apply NoDup_app; auto.
  - constructor; [intros [] | constructor].
  - intros a Ha [<-|[]]. contradiction.
Qed.

Lemma NoDup_map_filter {A K} (f : A -> K) (p : A -> bool) (l : list A) :
  NoDup (map f l) -> NoDup (map f (filter p l)).
Proof.
  induction l as [|y l IH]; simpl; intros H; [constructor|].
  inversion H as [|? ? Hy Hl]; subst.
  destruct (p y); simpl; auto.
  constructor; auto.
  intros Hin. apply Hy.
  apply in_map_iff in Hin as (z & Hz & Hzin).
  apply filter_In in Hzin as [Hzin _].
  rewrite <- Hz. now apply in_map.
Qed.

(** Under a unique key at most one row matches a value of the key. *)
Lemma unique_key_count (l : list row) (e : string) :
  NoDup (map r_email l) -> (List.length (filter (sql.by_email e) l) <= 1)%nat.
Proof.
  induction l as [|r l IH]; simpl; intros H; [lia|].
  inversion H as [|? ? Hr Hl]; subst.
  unfold sql.by_email at 1.
  destruct (String.eqb_spec (r_email r) e) as [He|He]; simpl; auto.
  enough (filter (sql.by_email e) l = []) as -> by (simpl; lia).
  destruct (filter (sql.by_email e) l) as [|z zs] eqn:F; [reflexivity|].
  exfalso. apply Hr.
  assert (Hz : In z (filter (sql.by_email e) l)) by (rewrite F; now left).
  apply filter_In in Hz as [Hz Hez].
  apply String.eqb_eq in Hez. rewrite He, <- Hez. now apply in_map.
Qed.

Lemma present_key_count (l : list row) (e : string) :
  (exists r, In r l /\ r_email r = e) ->
  (1 <= List.length (filter (sql.by_email e) l))%nat.
Proof.
  intros (r & Hr & He).
  assert (H : In r (filter (sql.by_email e) l)).
  { apply filter_In. split; [assumption|]. now apply String.eqb_eq. }
  destruct (filter (sql.by_email e) l); [contradiction | simpl; lia].
Qed.

(** ** NewAccount and CreateAccount, case by case *)

Lemma NewAccount_ok {B : bcrypt.API} salt email password name number balance acc :
  NewAccount salt email password name number balance = inr acc ->
  exists h,
    bcrypt.GenerateFromPassword salt password bcrypt.DefaultCost = inr h /\
    acc = {| Email := email; Password := h; ID := 0; Name := name;
             Number := number; Balance := balance |}.
Proof.
  unfold NewAccount.
  destruct (bcrypt.GenerateFromPassword _ _ _) as [err|h]; [discriminate|].
  intros H. inversion H. eauto.
Qed.


Lemma CreateAccount_ok s a s' a' :
  PostgresStorage.CreateAccount s a = (s', a', None) ->
  existsb (sql.by_id (accounts_id_seq s)) (accounts s) = false /\
  existsb (sql.by_email (Email a)) (accounts s) = false /\
  accounts s' = (accounts s ++ [inserted (accounts_id_seq s) a])%list /\
  accounts_id_seq s' = accounts_id_seq s + 1 /\
  a' = {| Email := Email a; Password := Password a; ID := accounts_id_seq s;
          Name := Name a; Number := Number a; Balance := Balance a |}.
Proof.
  unfold PostgresStorage.CreateAccount.
  destruct (existsb (sql.by_id _) _) eqn:Hid; [discriminate|].
  destruct (existsb (sql.by_email _) _) eqn:Hem; [discriminate|].
  intros H. inversion H; subst; clear H. simpl. auto.
Qed.

Lemma CreateAccount_accounts s a :
  let s' := fst (fst (PostgresStorage.CreateAccount s a)) in
  accounts_id_seq s' = accounts_id_seq s + 1 /\
  (accounts s' = accounts s \/
   existsb (sql.by_id (accounts_id_seq s)) (accounts s) = false /\
   existsb (sql.by_email (Email a)) (accounts s) = false /\
   accounts s' = (accounts s ++ [inserted (accounts_id_seq s) a])%list).
Proof.
  unfold PostgresStorage.CreateAccount.
  destruct (existsb (sql.by_id _) _) eqn:Hid; simpl; auto.
  destruct (existsb (sql.by_email _) _) eqn:Hem; simpl; auto.
Qed.

(** ** The key constraints hold in every reachable store *)

Lemma consistent_fresh : consistent fresh_store.
Proof. split; simpl; constructor. Qed.

Lemma consistent_CreateAccount s a :
  consistent s -> consistent (fst (fst (PostgresStorage.CreateAccount s a))).
Proof.
  intros [He Hi Hs].
  destruct (CreateAccount_accounts s a) as [Hseq [Hsame|(Hid & Hem & Happ)]];
    cbv zeta in *.
  - split; rewrite ?Hsame; auto.
    rewrite Hseq. eapply Forall_impl; [|exact Hs]. simpl; intros; lia.
  - split; rewrite Happ.
    + rewrite map_app. simpl. apply NoDup_snoc; [assumption|].
      intros Hin. apply in_map_iff in Hin as (r & Hr & Hrin).
      pose proof (existsb_false_In _ _ Hem r Hrin) as Hf.
      unfold sql.by_email in Hf. apply String.eqb_neq in Hf. auto.
    + rewrite map_app. simpl. apply NoDup_snoc; [assumption|].
      intros Hin. apply in_map_iff in Hin as (r & Hr & Hrin).
      pose proof (existsb_false_In _ _ Hid r Hrin) as Hf.
      unfold sql.by_id in Hf. apply Z.eqb_neq in Hf. auto.
    + rewrite Hseq. apply Forall_app. split.
      * eapply Forall_impl; [|exact Hs]. simpl; intros; lia.
      * repeat constructor. simpl. lia.
Qed.

Lemma consistent_DeleteAccount s id :
  consistent s -> consistent (fst (PostgresStorage.DeleteAccount s id)).
Proof.
  intros [He Hi Hs]. split; simpl.
  - now apply NoDup_map_filter.
  - now apply NoDup_map_filter.
  - apply Forall_forall. intros r Hr. apply filter_In in Hr as [Hr _].
    rewrite Forall_forall in Hs. auto.
Qed.

Lemma consistent_UpdateAccount s a :
  consistent s -> consistent (fst (PostgresStorage.UpdateAccount s a)).
Proof.
  intros [He Hi Hs]. split; simpl.
  - rewrite map_map.
    erewrite map_ext; [exact He|]. intros r; now destruct (sql.by_id _ r).
  - rewrite map_map.
    erewrite map_ext; [exact Hi|]. intros r; now destruct (sql.by_id _ r).
  - apply Forall_map. eapply Forall_impl; [|exact Hs].
    intros r Hr; now destruct (sql.by_id _ r).
Qed.

Lemma reachable_consistent s : reachable s -> consistent s.
Proof.
  induction 1;
    auto using consistent_fresh, consistent_CreateAccount,
      consistent_DeleteAccount, consistent_UpdateAccount.
Qed.

(** In a consistent store the sequence value is a fresh id, so an insert
    is decided by the email alone. *)
Lemma seq_is_fresh s :
  consistent s -> existsb (sql.by_id (accounts_id_seq s)) (accounts s) = false.
Proof.
  intros [_ _ Hs]. apply not_true_is_false. intros H.
  apply existsb_exists in H as (r & Hr & Hid).
  rewrite Forall_forall in Hs. specialize (Hs r Hr).
  unfold sql.by_id in Hid. apply Z.eqb_eq in Hid. lia.
Qed.

(** A request with an email no account carries is inserted. *)
Lemma CreateAccount_succeeds s a :
  consistent s ->
  (forall r, In r (accounts s) -> r_email r <> Email a) ->
  exists s' a', PostgresStorage.CreateAccount s a = (s', a', None).
Proof.
  intros Hc Hnew. unfold PostgresStorage.CreateAccount.
  rewrite (seq_is_fresh Hc).
  destruct (existsb (sql.by_email _) _) eqn:Hem; [|eauto].
  apply existsb_exists in Hem as (r & Hr & He).
  apply String.eqb_eq in He. now destruct (Hnew r Hr).
Qed.

(** ** The stand-in hasher keeps the laws *)

Lemma marker_round_trip : @bcrypt.round_trip marker_hasher.
Proof.
  intros salt pw cost h H. simpl in *. inversion H; subst.
  now rewrite String.eqb_refl.
Qed.

Lemma marker_never_plaintext : @bcrypt.never_plaintext marker_hasher.
Proof.
  intros salt pw cost h H. simpl in *. inversion H; subst.
  intros E. apply (f_equal String.length) in E. simpl in E. lia.
Qed.

(** ** Registration *)

(** C1: for every request that registers (NewAccount builds the entity and
    CreateAccount stores it), GetAccountByID on the id written back onto the
    entity returns the request's name, number and balance, and the one row
    stored under that id holds, as its secret, the hash generated from the
    request's password, which is different from that plaintext password. *)
Theorem register_then_fetch {B : bcrypt.API} :
  bcrypt.never_plaintext ->
  forall (s : PostgresStorage) (salt : string) (req : CreateAccountRequest.t)
         (acc created : account) (s' : PostgresStorage),
    NewAccount salt (CreateAccountRequest.Email req)
      (CreateAccountRequest.Password req) (CreateAccountRequest.Name req)
      (CreateAccountRequest.Number req) (CreateAccountRequest.Balance req)
      = inr acc ->
    PostgresStorage.CreateAccount s acc = (s', created, None) ->
    PostgresStorage.GetAccountByID s' (ID created) =
      ({| Email := ""; Password := ""; ID := ID created;
          Name := CreateAccountRequest.Name req;
          Number := CreateAccountRequest.Number req;
          Balance := CreateAccountRequest.Balance req |}, None) /\
    exists r,
      In r (accounts s') /\ r_id r = ID created /\
      (forall r', In r' (accounts s') -> r_id r' = ID created -> r' = r) /\
      bcrypt.GenerateFromPassword salt (CreateAccountRequest.Password req)
        bcrypt.DefaultCost = inr (r_password r) /\
      r_password r <> CreateAccountRequest.Password req.
Proof.
  intros Hhash s salt req acc created s' Hnew Hcreate.
  apply NewAccount_ok in Hnew as (h & Hgen & ->).
  apply CreateAccount_ok in Hcreate as (Hid & _ & Hacc & _ & ->).
  simpl in *. split.
  - unfold PostgresStorage.GetAccountByID, sql.QueryRow. rewrite Hacc.
    rewrite (find_app_last _ _ _ (existsb_false_find _ _ Hid)).
    + reflexivity.
    + apply Z.eqb_refl.
  - eexists. rewrite Hacc. split; [|split; [|split; [|split]]].
    + apply in_or_app. right. left. reflexivity.
    + reflexivity.
    + intros r' Hr' Hrid. apply in_app_or in Hr' as [Hr'|[<-|[]]].
      * pose proof (existsb_false_In _ _ Hid r' Hr') as Hf.
        unfold sql.by_id in Hf. apply Z.eqb_neq in Hf. contradiction.
      * reflexivity.
    + exact Hgen.
    + simpl. eapply Hhash; eassumption.
Qed.

Lemma register_then_fetch_witness :
  @bcrypt.never_plaintext marker_hasher /\
  @NewAccount marker_hasher "salt" "a@x.com" "secret" "A" "001" 100 =
    inr {| Email := "a@x.com"; Password := "$2a$secret"; ID := 0;
           Name := "A"; Number := "001"; Balance := 100 |} /\
  PostgresStorage.GetAccountByID
    {| accounts := [inserted 1 {| Email := "a@x.com"; Password := "$2a$secret";
                                  ID := 0; Name := "A"; Number := "001";
                                  Balance := 100 |}];
       accounts_id_seq := 2 |} 1 =
    ({| Email := ""; Password := ""; ID := 1; Name := "A"; Number := "001";
        Balance := 100 |}, None).
Proof.
  split; [exact marker_never_plaintext|].
  split; [reflexivity|].
  exact (proj1 (@register_then_fetch marker_hasher marker_never_plaintext
                  fresh_store "salt" example_request _ _ _ eq_refl eq_refl)).
Defined.

(** ** One account per email *)

(** C2: in every store the operations reach, an email is carried by at most
    one account; when an account with the email of [a] is present,
    CreateAccount for [a] fails with the unique violation of the email
    index, leaves the table and the entity as they were, and exactly one
    account carries that email afterwards. *)
Theorem email_is_unique (s : PostgresStorage) :
  reachable s ->
  (forall e, (count_email e s <= 1)%nat) /\
  (forall a,
      existsb (sql.by_email (Email a)) (accounts s) = true ->
      let '(s', a', err) := PostgresStorage.CreateAccount s a in
      err = Some (unique_violation "accounts_email_key") /\
      accounts s' = accounts s /\ a' = a /\
      count_email (Email a) s' = 1%nat).
Proof.
  intros Hr. pose proof (reachable_consistent Hr) as Hc. split.
  - intros e. apply unique_key_count, Hc.
  - intros a Hpresent. unfold PostgresStorage.CreateAccount.
    rewrite (seq_is_fresh Hc), Hpresent.
    repeat split. unfold count_email. simpl.
    apply Nat.le_antisymm.
    + apply unique_key_count, Hc.
    + apply present_key_count.
      apply existsb_exists in Hpresent as (r & Hin & He).
      apply String.eqb_eq in He. eauto.
Qed.

Lemma email_is_unique_witness :
  let s := fst (fst (PostgresStorage.CreateAccount fresh_store
                       {| Email := "a@x.com"; Password := "$2a$secret";
                          ID := 0; Name := "A"; Number := "001";
                          Balance := 100 |})) in
  reachable s /\
  (forall e, (count_email e s <= 1)%nat) /\
  snd (PostgresStorage.CreateAccount s
         {| Email := "a@x.com"; Password := "$2a$other"; ID := 0;
            Name := "B"; Number := "002"; Balance := 5 |})
    = Some (unique_violation "accounts_email_key").
Proof.
  cbv zeta.
  assert (Hr : reachable
                 (fst (fst (PostgresStorage.CreateAccount fresh_store
                       {| Email := "a@x.com"; Password := "$2a$secret";
                          ID := 0; Name := "A"; Number := "001";
                          Balance := 100 |})))).
  { apply reach_CreateAccount, reach_Init. }
  split; [exact Hr|].
  split; [exact (proj1 (email_is_unique Hr))|].
  exact (proj1 (proj2 (email_is_unique Hr)
                  {| Email := "a@x.com"; Password := "$2a$other"; ID := 0;
                     Name := "B"; Number := "002"; Balance := 5 |} eq_refl)).
Defined.

(** ** Login *)

(** C3, as stated, fails: with a@x.com registered under the password
    secret, a login for the unknown b@x.com and a login for a@x.com with a
    wrong password get different errors from CheckAuth, and the first one
    carries the text of sql.ErrNoRows. *)
Lemma CheckAuth_failures_differ :
  @PostgresStorage.CheckAuth marker_hasher example_store "b@x.com" "secret"
    = Some (Errorf "authentication failed: sql: no rows in result set") /\
  @PostgresStorage.CheckAuth marker_hasher example_store "a@x.com" "wrong"
    = Some (Errorf "authentication failed: incorrect password") /\
  @PostgresStorage.CheckAuth marker_hasher example_store "b@x.com" "secret"
    <> @PostgresStorage.CheckAuth marker_hasher example_store "a@x.com" "wrong".
Proof.
  repeat split. vm_compute. discriminate.
Qed.

(** C3, amended: a login with an email no account carries and a login with
    the email of an account whose hash the password does not verify against
    both fail in CheckAuth, and the handler answers both with status 401 and
    a message that starts with "authentication failed: "; the messages
    differ: the unknown email gets the text of the store's error
    (sql: no rows in result set), the wrong password gets
    "incorrect password". *)
Theorem login_failures {B : bcrypt.API} {T : TokenService}
    (s : PostgresStorage) (email1 pw1 email2 pw2 : string) (r2 : row) :
  find (sql.by_email email1) (accounts s) = None ->
  find (sql.by_email email2) (accounts s) = Some r2 ->
  bcrypt.CompareHashAndPassword (r_password r2) pw2 <> None ->
  PostgresStorage.CheckAuth s email1 pw1
    = Some (Errorf ("authentication failed: " ++ Error ErrNoRows)) /\
  PostgresStorage.CheckAuth s email2 pw2
    = Some (Errorf ("authentication failed: " ++ "incorrect password")) /\
  respond handleLogin s (login email1 pw1)
    = unauthorized "authentication failed: sql: no rows in result set" /\
  respond handleLogin s (login email2 pw2)
    = unauthorized "authentication failed: incorrect password" /\
  respond handleLogin s (login email1 pw1)
    <> respond handleLogin s (login email2 pw2).
Proof.
  intros H1 H2 Hwrong.
  assert (E1 : PostgresStorage.CheckAuth s email1 pw1
               = Some (Errorf ("authentication failed: " ++ Error ErrNoRows))).
  { unfold PostgresStorage.CheckAuth, sql.QueryRow. now rewrite H1. }
  assert (E2 : PostgresStorage.CheckAuth s email2 pw2
               = Some (Errorf ("authentication failed: " ++ "incorrect password"))).
  { unfold PostgresStorage.CheckAuth, sql.QueryRow. rewrite H2.
    destruct (bcrypt.CompareHashAndPassword _ _); [reflexivity | contradiction]. }
  assert (R1 : respond handleLogin s (login email1 pw1)
               = unauthorized "authentication failed: sql: no rows in result set").
  { unfold respond, handleLogin. simpl. now rewrite E1. }
  assert (R2 : respond handleLogin s (login email2 pw2)
               = unauthorized "authentication failed: incorrect password").
  { unfold respond, handleLogin. simpl. now rewrite E2. }
  repeat split; auto.
  rewrite R1, R2. discriminate.
Qed.

Lemma login_failures_witness :
  respond (@handleLogin _ (@PostgresStorage_Storage marker_hasher) prefix_tokens)
    example_store (login "b@x.com" "secret")
    = unauthorized "authentication failed: sql: no rows in result set" /\
  respond (@handleLogin _ (@PostgresStorage_Storage marker_hasher) prefix_tokens)
    example_store (login "a@x.com" "wrong")
    = unauthorized "authentication failed: incorrect password".
Proof.
  pose proof (@login_failures marker_hasher prefix_tokens example_store
                "b@x.com" "secret" "a@x.com" "wrong" _ eq_refl eq_refl
                ltac:(discriminate)) as (_ & _ & R1 & R2 & _).
  exact (conj R1 R2).
Defined.

(** Under a unique key two rows with the same key are one row. *)
Lemma unique_key_row (l : list row) (r r' : row) :
  NoDup (map r_email l) -> In r l -> In r' l -> r_email r = r_email r' ->
  r = r'.
Proof.
  induction l as [|x l IH]; simpl; intros H Hr Hr' He; [contradiction|].
  inversion H as [|? ? Hx Hl]; subst.
  destruct Hr as [->|Hr], Hr' as [->|Hr']; auto.
  - exfalso. apply Hx. rewrite He. now apply in_map.
  - exfalso. apply Hx. rewrite <- He. now apply in_map.
Qed.

(** As long as the row of an account stays in the store, the password its
    hash was generated from logs in. *)
Lemma stored_account_logs_in {B : bcrypt.API} (s : PostgresStorage) (r : row)
    (salt pw : string) (cost : Z) :
  bcrypt.round_trip -> consistent s -> In r (accounts s) ->
  bcrypt.GenerateFromPassword salt pw cost = inr (r_password r) ->
  PostgresStorage.CheckAuth s (r_email r) pw = None.
Proof.
  intros Hrt Hc Hr Hgen. unfold PostgresStorage.CheckAuth, sql.QueryRow.
  destruct (find _ _) as [r'|] eqn:F.
  - apply find_some in F as [Hr' He]. apply String.eqb_eq in He.
    rewrite (unique_key_row _ _ _ (emails_unique Hc) Hr' Hr He).
    now rewrite (Hrt _ _ _ _ Hgen).
  - pose proof (find_none _ _ F r Hr) as Hf.
    unfold sql.by_email in Hf. now rewrite String.eqb_refl in Hf.
Qed.

(** C4: for every account registered from a request, CheckAuth with the
    request's email and plaintext password succeeds on the resulting store,
    and the login handler answers 200 with the token that CreateToken mints
    for the email, followed by the login message. *)
Theorem register_then_login {B : bcrypt.API} {T : TokenService} :
  bcrypt.round_trip ->
  forall (s : PostgresStorage) (salt : string) (req : CreateAccountRequest.t)
         (acc created : account) (s' : PostgresStorage),
    NewAccount salt (CreateAccountRequest.Email req)
      (CreateAccountRequest.Password req) (CreateAccountRequest.Name req)
      (CreateAccountRequest.Number req) (CreateAccountRequest.Balance req)
      = inr acc ->
    PostgresStorage.CreateAccount s acc = (s', created, None) ->
    PostgresStorage.CheckAuth s' (CreateAccountRequest.Email req)
      (CreateAccountRequest.Password req) = None /\
    respond handleLogin s'
      (login (CreateAccountRequest.Email req) (CreateAccountRequest.Password req))
    = {| header := []; status := Some StatusOK;
         body := [Text (fst (CreateToken (CreateAccountRequest.Email req)));
                  JSON (V_map [("message", "login successful")])] |}.
Proof.
  intros Hrt s salt req acc created s' Hnew Hcreate.
  apply NewAccount_ok in Hnew as (h & Hgen & ->).
  apply CreateAccount_ok in Hcreate as (_ & Hem & Hacc & _ & _).
  simpl in *.
  assert (E : PostgresStorage.CheckAuth s' (CreateAccountRequest.Email req)
                (CreateAccountRequest.Password req) = None).
  { unfold PostgresStorage.CheckAuth, sql.QueryRow. rewrite Hacc.
    rewrite (find_app_last _ _ _ (existsb_false_find _ _ Hem)).
    - simpl. now rewrite (Hrt _ _ _ _ Hgen).
    - apply String.eqb_refl. }
  split; [exact E|].
  unfold respond, handleLogin. simpl. rewrite E.
  destruct (CreateToken _) as [tokenString JWTerr]. reflexivity.
Qed.

Lemma register_then_login_witness :
  @bcrypt.round_trip marker_hasher /\
  @PostgresStorage.CheckAuth marker_hasher example_store "a@x.com" "secret"
    = None /\
  respond (@handleLogin _ (@PostgresStorage_Storage marker_hasher) prefix_tokens)
    example_store (login "a@x.com" "secret")
  = {| header := []; status := Some StatusOK;
       body := [Text "token:a@x.com";
                JSON (V_map [("message", "login successful")])] |}.
Proof.
  split; [exact marker_round_trip|].
  exact (@register_then_login marker_hasher prefix_tokens marker_round_trip
           fresh_store "salt" example_request _ _ _ eq_refl eq_refl).
Defined.

(** ** Deletion *)

(** C5, as stated, fails: no account of the example store has the id 7, and
    DeleteAccount 7 returns a nil error, not sql.ErrNoRows; deleting the
    account 1 a second time returns a nil error as well. *)
Lemma DeleteAccount_absent_is_success :
  existsb (sql.by_id 7) (accounts example_store) = false /\
  PostgresStorage.DeleteAccount example_store 7 = (example_store, None) /\
  snd (PostgresStorage.DeleteAccount example_store 7) <> Some ErrNoRows /\
  snd (PostgresStorage.DeleteAccount
         (fst (PostgresStorage.DeleteAccount example_store 1)) 1) = None.
Proof.
  repeat split. discriminate.
Qed.

(** C5, amended: for every id that no account of the store has,
    DeleteAccount returns a nil error and leaves the store as it was, and
    the handler answers 200 with that nil error. *)
Theorem DeleteAccount_absent {B : bcrypt.API} (s : PostgresStorage) (id : Z) :
  existsb (sql.by_id id) (accounts s) = false ->
  PostgresStorage.DeleteAccount s id = (s, None) /\
  handleGetAccountById {| listenAddress := ":3000"; store := s |}
    NewResponseWriter (on_account "DELETE" id)
  = ({| listenAddress := ":3000"; store := s |}, ok (V_error None), None).
Proof.
  intros Habsent.
  assert (F : filter (fun r => negb (sql.by_id id r)) (accounts s) = accounts s).
  { apply filter_all. intros r Hr.
    now rewrite (existsb_false_In _ _ Habsent r Hr). }
  split.
  - unfold PostgresStorage.DeleteAccount. rewrite F. now destruct s.
  - unfold handleGetAccountById, handleDeleteAccount. simpl. rewrite F.
    now destruct s.
Qed.

Lemma DeleteAccount_absent_witness :
  existsb (sql.by_id 7) (accounts example_store) = false /\
  PostgresStorage.DeleteAccount example_store 7 = (example_store, None).
Proof.
  split; [reflexivity|].
  exact (proj1 (@DeleteAccount_absent marker_hasher example_store 7 eq_refl)).
Defined.

(** C6: DeleteAccount returns a nil error and leaves no row under the id,
    so that GetAccountByID on the id then returns sql.ErrNoRows, which the
    handler of GET passes on as its error. *)
Theorem delete_then_fetch {B : bcrypt.API} (s : PostgresStorage) (id : Z) :
  snd (PostgresStorage.DeleteAccount s id) = None /\
  (forall r, In r (accounts (fst (PostgresStorage.DeleteAccount s id))) ->
             r_id r <> id) /\
  PostgresStorage.GetAccountByID (fst (PostgresStorage.DeleteAccount s id)) id
    = (account_zero, Some ErrNoRows) /\
  snd (handleGetAccountById
         {| listenAddress := ":3000";
            store := fst (PostgresStorage.DeleteAccount s id) |}
         NewResponseWriter (on_account "GET" id))
    = Some ErrNoRows.
Proof.
  assert (E : PostgresStorage.GetAccountByID
                (fst (PostgresStorage.DeleteAccount s id)) id
              = (account_zero, Some ErrNoRows)).
  { unfold PostgresStorage.GetAccountByID, sql.QueryRow. simpl.
    now rewrite find_filter_negb. }
  split; [reflexivity|]. split; [|split; [exact E|]].
  - simpl. intros r Hr. apply filter_In in Hr as [_ Hr].
    apply negb_true_iff, Z.eqb_neq in Hr. exact Hr.
  - unfold handleGetAccountById, PostgresStorage.GetAccountByID, sql.QueryRow.
    simpl. unfold PostgresStorage.GetAccountByID, sql.QueryRow. simpl.
    now rewrite find_filter_negb.
Qed.

(** ** Update *)

(** C7: UpdateAccount leaves the sequence, the number and order of the rows
    and every id, email and password as they were; a row whose id is not
    the entity's is unchanged, and a row whose id is the entity's takes the
    entity's name, number and balance. *)
Theorem UpdateAccount_frame (s : PostgresStorage) (a : account) :
  let s' := fst (PostgresStorage.UpdateAccount s a) in
  snd (PostgresStorage.UpdateAccount s a) = None /\
  accounts_id_seq s' = accounts_id_seq s /\
  map r_id (accounts s') = map r_id (accounts s) /\
  map r_email (accounts s') = map r_email (accounts s) /\
  map r_password (accounts s') = map r_password (accounts s) /\
  Forall2 (fun r r' =>
             if r_id r =? ID a
             then r_name r' = Name a /\ r_number r' = Number a /\
                  r_balance r' = Balance a
             else r' = r)
          (accounts s) (accounts s').
Proof.
  cbv zeta. simpl. repeat split.
  - rewrite map_map. apply map_ext. intros r. now destruct (sql.by_id _ r).
  - rewrite map_map. apply map_ext. intros r. now destruct (sql.by_id _ r).
  - rewrite map_map. apply map_ext. intros r. now destruct (sql.by_id _ r).
  - induction (accounts s) as [|r l IH]; simpl; constructor; [|exact IH].
    unfold sql.by_id. destruct (r_id r =? ID a); simpl; auto.
Qed.

(** ** What the handlers return *)

(** Whatever the request, a successful [handleCreateAccount] writes the
    request itself as the JSON body. *)
Lemma handleCreateAccount_body {S : Type} {St : Storage.t S} {B : bcrypt.API}
    (salt : string) (s s' : Apiserver S) (w w' : ResponseWriter)
    (r : Request CreateAccountRequest.t) (req : CreateAccountRequest.t) :
  Body r = inr req ->
  handleCreateAccount salt s w r = (s', w', None) ->
  body w' = (body w ++ [JSON (V_CreateAccountRequest req)])%list.
Proof.
  unfold handleCreateAccount. intros ->.
  destruct (NewAccount _ _ _ _ _ _) as [err|acc]; [discriminate|].
  destruct (Storage.CreateAccount _ _) as [[st a'] [err|]]; [discriminate|].
  intros H. inversion H; subst. now destruct w as [hd [code|] bd].
Qed.

(** C8 fails on the code: for the request of the example scenario on a
    fresh store, the store writes the id 1 onto the entity, and the handler
    answers with the request as it came in (plaintext password, no id), not
    with the entity. *)
Theorem handleCreateAccount_returns_request :
  snd (fst (PostgresStorage.CreateAccount fresh_store
              {| Email := "a@x.com"; Password := "$2a$secret"; ID := 0;
                 Name := "A"; Number := "001"; Balance := 100 |}))
    = {| Email := "a@x.com"; Password := "$2a$secret"; ID := 1;
         Name := "A"; Number := "001"; Balance := 100 |} /\
  respond (@handleCreateAccount _ (@PostgresStorage_Storage marker_hasher)
             marker_hasher "salt")
    fresh_store (create example_request)
    = ok (V_CreateAccountRequest
            (CreateAccountRequest.Build "a@x.com" "secret" "A" "001" 100)) /\
  respond (@handleCreateAccount _ (@PostgresStorage_Storage marker_hasher)
             marker_hasher "salt")
    fresh_store (create example_request)
    <> ok (V_account {| Email := "a@x.com"; Password := "$2a$secret"; ID := 1;
                        Name := "A"; Number := "001"; Balance := 100 |}).
Proof.
  repeat split. vm_compute. discriminate.
Qed.

(** C9: on a store without accounts GetUsers returns the empty, non-nil
    slice and a nil error, and the handler answers 200 with it. *)
Theorem GetUsers_empty {B : bcrypt.API} (seq : Z) (R : Type) (r : Request R) :
  PostgresStorage.GetUsers {| accounts := []; accounts_id_seq := seq |}
    = (Some [], None) /\
  handleGetUsers
    {| listenAddress := ":3000";
       store := {| accounts := []; accounts_id_seq := seq |} |}
    NewResponseWriter r
  = ({| listenAddress := ":3000";
        store := {| accounts := []; accounts_id_seq := seq |} |},
     ok (V_accounts (Some [])), None).
Proof.
  split; reflexivity.
Qed.

(** C10: the account GetAccountByID returns, and every account GetUsers
    returns, has the id, name, number and balance of a row (or, for an id
    without a row, is the zero account) and an empty email and password. *)
Theorem queries_project_four_columns (s : PostgresStorage) :
  (forall id,
      Email (fst (PostgresStorage.GetAccountByID s id)) = "" /\
      Password (fst (PostgresStorage.GetAccountByID s id)) = "" /\
      (fst (PostgresStorage.GetAccountByID s id) = account_zero \/
       exists r, In r (accounts s) /\ r_id r = id /\
         fst (PostgresStorage.GetAccountByID s id)
         = {| Email := ""; Password := ""; ID := r_id r; Name := r_name r;
              Number := r_number r; Balance := r_balance r |})) /\
  PostgresStorage.GetUsers s
    = (Some (map (fun r => {| Email := ""; Password := ""; ID := r_id r;
                              Name := r_name r; Number := r_number r;
                              Balance := r_balance r |}) (accounts s)),
       None) /\
  Forall (fun a => Email a = "" /\ Password a = "")
         (match fst (PostgresStorage.GetUsers s) with
          | Some users => users
          | None => []
          end).
Proof.
  split; [|split].
  - intros id. unfold PostgresStorage.GetAccountByID, sql.QueryRow.
    destruct (find _ _) as [r|] eqn:F; simpl; repeat split; auto.
    right. exists r. apply find_some in F as [Hin Hid].
    apply Z.eqb_eq in Hid. auto.
  - reflexivity.
  - simpl. apply Forall_map, Forall_forall. intros r _. split; reflexivity.
Qed.

(** * Further properties of the store *)

(** ** Lookups under the table's statements *)

Lemma find_app_found {A} (p : A -> bool) (l l' : list A) x :
  find p l = Some x -> find p (l ++ l') = Some x.
Proof.
  induction l as [|y l IH]; simpl; [discriminate|].
  destruct (p y); auto.
Qed.

Lemma find_filter_keep {A} (p q : A -> bool) (l : list A) :
  (forall x, In x l -> p x = true -> q x = true) ->
  find p (filter q l) = find p l.
Proof.
  induction l as [|y l IH]; simpl; intros H; [reflexivity|].
  destruct (q y) eqn:Q; simpl.
  - destruct (p y); auto.
  - destruct (p y) eqn:P; auto.
    rewrite (H y (or_introl eq_refl) P) in Q. discriminate.
Qed.

Lemma find_map_same {A} (p : A -> bool) (f : A -> A) (l : list A) :
  (forall x, p (f x) = p x) ->
  find p (map f l) = option_map f (find p l).
Proof.
  intros H. induction l as [|y l IH]; simpl; [reflexivity|].
  rewrite H. destruct (p y); auto.
Qed.

Lemma existsb_true_find {A} (p : A -> bool) (l : list A) :
  existsb p l = true -> exists x, find p l = Some x /\ In x l /\ p x = true.
Proof.
  induction l as [|y l IH]; simpl; [discriminate|].
  destruct (p y) eqn:P; simpl; intros H.
  - exists y. auto.
  - destruct (IH H) as (x & F & Hin & Hp). exists x. auto.
Qed.

(** Under the primary key the row of an id is the row the lookup finds. *)
Lemma find_by_id (l : list row) (r : row) :
  NoDup (map r_id l) -> In r l -> find (sql.by_id (r_id r)) l = Some r.
Proof.
  induction l as [|x l IH]; simpl; intros H Hr; [contradiction|].
  inversion H as [|? ? Hx Hl]; subst. unfold sql.by_id at 1.
  destruct Hr as [->|Hr]; [now rewrite Z.eqb_refl|].
  destruct (Z.eqb_spec (r_id x) (r_id r)) as [E|E]; auto.
  exfalso. apply Hx. rewrite E. now apply in_map.
Qed.

(** Under the unique index the row of an email is the row the lookup
    finds. *)
Lemma find_by_email (l : list row) (r : row) :
  NoDup (map r_email l) -> In r l ->
  find (sql.by_email (r_email r)) l = Some r.
Proof.
  induction l as [|x l IH]; simpl; intros H Hr; [contradiction|].
  inversion H as [|? ? Hx Hl]; subst. unfold sql.by_email at 1.
  destruct Hr as [->|Hr]; [now rewrite String.eqb_refl|].
  destruct (String.eqb_spec (r_email x) (r_email r)) as [E|E]; auto.
  exfalso. apply Hx. rewrite E. now apply in_map.
Qed.

Lemma consistent_example : consistent example_store.
Proof.
  split; simpl.
  - repeat constructor. intros [].
  - repeat constructor. intros [].
  - repeat constructor.
Qed.

(** The one row of the example store. *)
Lemma example_row_In :
  In {| r_id := 1; r_email := "a@x.com"; r_password := "$2a$secret";
        r_name := "A"; r_number := "001"; r_balance := 100 |}
     (accounts example_store).
Proof. left. reflexivity. Qed.

(** ** CreateAccount *)

(** X1: in a store that keeps the key constraints, CreateAccount returns a
    nil error exactly when no account carries the entity's email. *)
Theorem CreateAccount_accepts_iff_email_new (s : PostgresStorage) (a : account) :
  consistent s ->
  (snd (PostgresStorage.CreateAccount s a) = None <->
   existsb (sql.by_email (Email a)) (accounts s) = false).
Proof.
  intros Hc. unfold PostgresStorage.CreateAccount.
  rewrite (seq_is_fresh Hc).
  destruct (existsb (sql.by_email _) _); simpl; split; intros H;
    (reflexivity || discriminate).
Qed.

Lemma CreateAccount_accepts_iff_email_new_witness :
  consistent example_store /\
  (snd (PostgresStorage.CreateAccount example_store
          {| Email := "b@x.com"; Password := "$2a$pw"; ID := 0; Name := "B";
             Number := "002"; Balance := 7 |}) = None <->
   existsb (sql.by_email "b@x.com") (accounts example_store) = false).
Proof.
  split; [exact consistent_example|].
  exact (@CreateAccount_accepts_iff_email_new example_store
           {| Email := "b@x.com"; Password := "$2a$pw"; ID := 0; Name := "B";
              Number := "002"; Balance := 7 |} consistent_example).
Defined.

(** The sequence never goes back. *)
Lemma seq_step (s : PostgresStorage) (o : op) :
  accounts_id_seq s <= accounts_id_seq (step s o).
Proof.
  destruct o as [a|id|a]; simpl; try lia.
  destruct (CreateAccount_accounts s a) as [H _]. cbv zeta in H. lia.
Qed.

Lemma seq_run (ops : list op) (s : PostgresStorage) :
  accounts_id_seq s <= accounts_id_seq (run ops s).
Proof.
  unfold run. revert s.
  induction ops as [|o ops IH]; simpl; intros s; [lia|].
  specialize (IH (step s o)). pose proof (seq_step s o). lia.
Qed.

(** X2: an id is handed out once: whatever creations, deletions and updates
    follow a successful CreateAccount, a later successful CreateAccount
    writes a larger id onto its entity, also when the first account has been
    deleted in between. *)
Theorem ids_are_never_reused (s s1 s2 : PostgresStorage) (a a1 a' a2 : account)
    (ops : list op) :
  PostgresStorage.CreateAccount s a = (s1, a1, None) ->
  PostgresStorage.CreateAccount (run ops s1) a' = (s2, a2, None) ->
  ID a1 < ID a2.
Proof.
  intros H1 H2.
  apply CreateAccount_ok in H1 as (_ & _ & _ & Hseq1 & ->).
  apply CreateAccount_ok in H2 as (_ & _ & _ & _ & ->).
  simpl. pose proof (seq_run ops s1). lia.
Qed.

Lemma ids_are_never_reused_witness :
  (1 : Z) <
  ID (snd (fst (PostgresStorage.CreateAccount
                  (run [OpDeleteAccount 1]
                     (fst (fst (PostgresStorage.CreateAccount fresh_store
                        {| Email := "a@x.com"; Password := "$2a$secret";
                           ID := 0; Name := "A"; Number := "001";
                           Balance := 100 |}))))
                  {| Email := "a@x.com"; Password := "$2a$again"; ID := 0;
                     Name := "A"; Number := "001"; Balance := 0 |}))).
Proof.
  exact (@ids_are_never_reused fresh_store _ _
           {| Email := "a@x.com"; Password := "$2a$secret"; ID := 0;
              Name := "A"; Number := "001"; Balance := 100 |} _
           {| Email := "a@x.com"; Password := "$2a$again"; ID := 0;
              Name := "A"; Number := "001"; Balance := 0 |} _
           [OpDeleteAccount 1] eq_refl eq_refl).
Defined.

(** X3: CreateAccount, accepted or refused, leaves every account that was
    in the store as it was: GetAccountByID on an id the store had returns
    what it returned before. *)
Theorem CreateAccount_keeps_accounts (s : PostgresStorage) (a : account) (id : Z) :
  existsb (sql.by_id id) (accounts s) = true ->
  PostgresStorage.GetAccountByID
    (fst (fst (PostgresStorage.CreateAccount s a))) id
  = PostgresStorage.GetAccountByID s id.
Proof.
  intros Hid. apply existsb_true_find in Hid as (r & F & _ & _).
  destruct (CreateAccount_accounts s a) as [_ [Hsame|(_ & _ & Happ)]];
    cbv zeta in *; unfold PostgresStorage.GetAccountByID, sql.QueryRow.
  - now rewrite Hsame.
  - rewrite Happ, (find_app_found _ _ _ F), F. reflexivity.
Qed.

Lemma CreateAccount_keeps_accounts_witness :
  PostgresStorage.GetAccountByID
    (fst (fst (PostgresStorage.CreateAccount example_store
                 {| Email := "b@x.com"; Password := "$2a$pw"; ID := 0;
                    Name := "B"; Number := "002"; Balance := 7 |}))) 1
  = PostgresStorage.GetAccountByID example_store 1.
Proof.
  exact (@CreateAccount_keeps_accounts example_store
           {| Email := "b@x.com"; Password := "$2a$pw"; ID := 0;
              Name := "B"; Number := "002"; Balance := 7 |} 1 eq_refl).
Defined.

(** X4: CreateAccount, accepted or refused, does not change how a
    registered email logs in: CheckAuth on an email the store had gives what
    it gave before, for every password. *)
Theorem CreateAccount_keeps_logins {B : bcrypt.API} (s : PostgresStorage)
    (a : account) (email password : string) :
  existsb (sql.by_email email) (accounts s) = true ->
  PostgresStorage.CheckAuth
    (fst (fst (PostgresStorage.CreateAccount s a))) email password
  = PostgresStorage.CheckAuth s email password.
Proof.
  intros He. apply existsb_true_find in He as (r & F & _ & _).
  destruct (CreateAccount_accounts s a) as [_ [Hsame|(_ & _ & Happ)]];
    cbv zeta in *; unfold PostgresStorage.CheckAuth, sql.QueryRow.
  - now rewrite Hsame.
  - rewrite Happ, (find_app_found _ _ _ F), F. reflexivity.
Qed.

Lemma CreateAccount_keeps_logins_witness :
  @PostgresStorage.CheckAuth marker_hasher
    (fst (fst (PostgresStorage.CreateAccount example_store
                 {| Email := "b@x.com"; Password := "$2a$pw"; ID := 0;
                    Name := "B"; Number := "002"; Balance := 7 |})))
    "a@x.com" "secret"
  = @PostgresStorage.CheckAuth marker_hasher example_store "a@x.com" "secret".
Proof.
  exact (@CreateAccount_keeps_logins marker_hasher example_store
           {| Email := "b@x.com"; Password := "$2a$pw"; ID := 0;
              Name := "B"; Number := "002"; Balance := 7 |}
           "a@x.com" "secret" eq_refl).
Defined.

(** ** DeleteAccount *)

(** X5: DeleteAccount touches the account of its id only: GetAccountByID on
    any other id returns what it returned before. *)
Theorem DeleteAccount_keeps_others (s : PostgresStorage) (id id' : Z) :
  id' <> id ->
  PostgresStorage.GetAccountByID (fst (PostgresStorage.DeleteAccount s id)) id'
  = PostgresStorage.GetAccountByID s id'.
Proof.
  intros Hne. unfold PostgresStorage.GetAccountByID, sql.QueryRow. simpl.
  rewrite find_filter_keep; [reflexivity|].
  intros r _ Hr. unfold sql.by_id in *. apply Z.eqb_eq in Hr.
  apply negb_true_iff, Z.eqb_neq. lia.
Qed.

Lemma DeleteAccount_keeps_others_witness :
  (1 <> 7) /\
  PostgresStorage.GetAccountByID
    (fst (PostgresStorage.DeleteAccount example_store 7)) 1
  = PostgresStorage.GetAccountByID example_store 1.
Proof.
  split; [discriminate|].
  exact (@DeleteAccount_keeps_others example_store 7 1 ltac:(discriminate)).
Defined.

(** X6: in a store that keeps the key constraints, deleting an account
    ends its login: CheckAuth with its email then fails as for an unknown
    email, whatever the password; the logins of the accounts with another
    id are as before. *)
Theorem DeleteAccount_revokes_login {B : bcrypt.API} (s : PostgresStorage)
    (r r' : row) (password : string) :
  consistent s -> In r (accounts s) -> In r' (accounts s) ->
  r_id r' <> r_id r ->
  PostgresStorage.CheckAuth
    (fst (PostgresStorage.DeleteAccount s (r_id r))) (r_email r) password
  = Some (Errorf "authentication failed: sql: no rows in result set") /\
  PostgresStorage.CheckAuth
    (fst (PostgresStorage.DeleteAccount s (r_id r))) (r_email r') password
  = PostgresStorage.CheckAuth s (r_email r') password.
Proof.
  intros Hc Hr Hr' Hne. unfold PostgresStorage.CheckAuth, sql.QueryRow.
  simpl. split.
  - destruct (find _ _) as [x|] eqn:F; [|reflexivity].
    apply find_some in F as [Hx He]. apply filter_In in Hx as [Hx Hid].
    apply String.eqb_eq in He.
    rewrite (unique_key_row _ _ _ (emails_unique Hc) Hx Hr He) in Hid.
    unfold sql.by_id in Hid. now rewrite Z.eqb_refl in Hid.
  - rewrite find_filter_keep; [reflexivity|].
    intros x Hx He. apply String.eqb_eq in He.
    rewrite (unique_key_row _ _ _ (emails_unique Hc) Hx Hr' He).
    now apply negb_true_iff, Z.eqb_neq.
Qed.

(** The example store with a second account. *)
Lemma consistent_two_accounts :
  consistent
    {| accounts :=
         [{| r_id := 1; r_email := "a@x.com"; r_password := "$2a$secret";
             r_name := "A"; r_number := "001"; r_balance := 100 |};
          {| r_id := 2; r_email := "b@x.com"; r_password := "$2a$pw";
             r_name := "B"; r_number := "002"; r_balance := 7 |}];
       accounts_id_seq := 3 |}.
Proof.
  apply (@reachable_consistent).
  apply (@reach_CreateAccount
           (fst (fst (PostgresStorage.CreateAccount fresh_store
              {| Email := "a@x.com"; Password := "$2a$secret"; ID := 0;
                 Name := "A"; Number := "001"; Balance := 100 |})))
           {| Email := "b@x.com"; Password := "$2a$pw"; ID := 0; Name := "B";
              Number := "002"; Balance := 7 |}).
  apply reach_CreateAccount, reach_Init.
Qed.

Lemma DeleteAccount_revokes_login_witness :
  let s := {| accounts :=
         [{| r_id := 1; r_email := "a@x.com"; r_password := "$2a$secret";
             r_name := "A"; r_number := "001"; r_balance := 100 |};
          {| r_id := 2; r_email := "b@x.com"; r_password := "$2a$pw";
             r_name := "B"; r_number := "002"; r_balance := 7 |}];
       accounts_id_seq := 3 |} in
  consistent s /\
  @PostgresStorage.CheckAuth marker_hasher
    (fst (PostgresStorage.DeleteAccount s 1)) "a@x.com" "secret"
  = Some (Errorf "authentication failed: sql: no rows in result set") /\
  @PostgresStorage.CheckAuth marker_hasher
    (fst (PostgresStorage.DeleteAccount s 1)) "b@x.com" "secret"
  = @PostgresStorage.CheckAuth marker_hasher s "b@x.com" "secret".
Proof.
  cbv zeta. split; [exact consistent_two_accounts|].
  exact (@DeleteAccount_revokes_login marker_hasher _
           {| r_id := 1; r_email := "a@x.com"; r_password := "$2a$secret";
              r_name := "A"; r_number := "001"; r_balance := 100 |}
           {| r_id := 2; r_email := "b@x.com"; r_password := "$2a$pw";
              r_name := "B"; r_number := "002"; r_balance := 7 |}
           "secret" consistent_two_accounts
           (or_introl eq_refl) (or_intror (or_introl eq_refl))
           ltac:(discriminate)).
Defined.

(** X7: in a store that keeps the key constraints, deleting an account
    frees its email but not its id: CreateAccount with the email of the
    deleted account is accepted, and the id it assigns is larger than the
    deleted one. *)
Theorem DeleteAccount_frees_email (s : PostgresStorage) (r : row) (a : account) :
  consistent s -> In r (accounts s) -> Email a = r_email r ->
  exists s' a',
    PostgresStorage.CreateAccount
      (fst (PostgresStorage.DeleteAccount s (r_id r))) a = (s', a', None) /\
    r_id r < ID a'.
Proof.
  intros Hc Hr He.
  pose proof (consistent_DeleteAccount (r_id r) Hc) as Hc'.
  destruct (@CreateAccount_succeeds
              (fst (PostgresStorage.DeleteAccount s (r_id r))) a Hc')
    as (s' & a' & Hok).
  - simpl. intros x Hx Hxe. apply filter_In in Hx as [Hx Hid].
    rewrite He in Hxe.
    rewrite (unique_key_row _ _ _ (emails_unique Hc) Hx Hr Hxe) in Hid.
    unfold sql.by_id in Hid. now rewrite Z.eqb_refl in Hid.
  - exists s', a'. split; [exact Hok|].
    apply CreateAccount_ok in Hok as (_ & _ & _ & _ & ->). simpl.
    pose proof (ids_below_seq Hc) as Hs. rewrite Forall_forall in Hs.
    exact (Hs r Hr).
Qed.

Lemma DeleteAccount_frees_email_witness :
  consistent example_store /\
  exists s' a',
    PostgresStorage.CreateAccount
      (fst (PostgresStorage.DeleteAccount example_store 1))
      {| Email := "a@x.com"; Password := "$2a$again"; ID := 0; Name := "A";
         Number := "001"; Balance := 0 |} = (s', a', None) /\
    1 < ID a'.
Proof.
  split; [exact consistent_example|].
  exact (@DeleteAccount_frees_email example_store _
           {| Email := "a@x.com"; Password := "$2a$again"; ID := 0;
              Name := "A"; Number := "001"; Balance := 0 |}
           consistent_example example_row_In eq_refl).
Defined.

(** X8: deleting twice is deleting once: the second DeleteAccount of an id
    returns the same nil error and leaves the store the first one made. *)
Theorem DeleteAccount_idempotent (s : PostgresStorage) (id : Z) :
  PostgresStorage.DeleteAccount (fst (PostgresStorage.DeleteAccount s id)) id
  = PostgresStorage.DeleteAccount s id.
Proof.
  unfold PostgresStorage.DeleteAccount. simpl. f_equal. f_equal.
  apply filter_all. intros r Hr. now apply filter_In in Hr as [_ Hr].
Qed.

(** ** UpdateAccount *)

(** X9: after UpdateAccount for an entity whose id the store has,
    GetAccountByID on that id returns the entity's name, number and
    balance. *)
Theorem update_then_fetch (s : PostgresStorage) (a : account) :
  existsb (sql.by_id (ID a)) (accounts s) = true ->
  PostgresStorage.GetAccountByID
    (fst (PostgresStorage.UpdateAccount s a)) (ID a)
  = ({| Email := ""; Password := ""; ID := ID a; Name := Name a;
        Number := Number a; Balance := Balance a |}, None).
Proof.
  intros Hid. apply existsb_true_find in Hid as (r & F & _ & Hr).
  unfold PostgresStorage.GetAccountByID, sql.QueryRow. simpl.
  rewrite find_map_same.
  - rewrite F. simpl. rewrite Hr. unfold scan_account. simpl.
    unfold sql.by_id in Hr. apply Z.eqb_eq in Hr. now rewrite Hr.
  - intros x. destruct (sql.by_id (ID a) x) eqn:E; exact E.
Qed.

Lemma update_then_fetch_witness :
  PostgresStorage.GetAccountByID
    (fst (PostgresStorage.UpdateAccount example_store
            {| Email := "z@x.com"; Password := "ignored"; ID := 1;
               Name := "Ann"; Number := "009"; Balance := -5 |})) 1
  = ({| Email := ""; Password := ""; ID := 1; Name := "Ann";
        Number := "009"; Balance := -5 |}, None).
Proof.
  exact (@update_then_fetch example_store
           {| Email := "z@x.com"; Password := "ignored"; ID := 1;
              Name := "Ann"; Number := "009"; Balance := -5 |} eq_refl).
Defined.

(** X10: UpdateAccount for an entity whose id no account has returns a nil
    error and leaves the store as it was: a missing id is not reported. *)
Theorem UpdateAccount_absent (s : PostgresStorage) (a : account) :
  existsb (sql.by_id (ID a)) (accounts s) = false ->
  PostgresStorage.UpdateAccount s a = (s, None).
Proof.
  intros Hid. unfold PostgresStorage.UpdateAccount.
  replace (map _ (accounts s)) with (accounts s); [now destruct s|].
  rewrite <- (map_id (accounts s)) at 1. apply map_ext_in.
  intros r Hr. now rewrite (existsb_false_In _ _ Hid r Hr).
Qed.

Lemma UpdateAccount_absent_witness :
  PostgresStorage.UpdateAccount example_store
    {| Email := ""; Password := ""; ID := 7; Name := "Ann"; Number := "009";
       Balance := 1 |} = (example_store, None).
Proof.
  exact (@UpdateAccount_absent example_store
           {| Email := ""; Password := ""; ID := 7; Name := "Ann";
              Number := "009"; Balance := 1 |} eq_refl).
Defined.

(** X11: UpdateAccount changes no login: CheckAuth gives the same result
    before and after, for every email and password, whatever email and
    password the entity carries. *)
Theorem UpdateAccount_keeps_logins {B : bcrypt.API} (s : PostgresStorage)
    (a : account) (email password : string) :
  PostgresStorage.CheckAuth (fst (PostgresStorage.UpdateAccount s a))
    email password
  = PostgresStorage.CheckAuth s email password.
Proof.
  unfold PostgresStorage.CheckAuth, sql.QueryRow. simpl.
  rewrite find_map_same.
  - destruct (find _ _) as [r|]; simpl; [|reflexivity].
    now destruct (sql.by_id (ID a) r).
  - intros x. now destruct (sql.by_id (ID a) x).
Qed.

(** ** GetUsers, GetAccountByID and CheckAuth on one store *)

(** X12: in a store that keeps the key constraints, GetUsers and
    GetAccountByID agree: an account is in the list of GetUsers exactly when
    GetAccountByID on its id returns it with a nil error; the list has one
    entry per row and no id twice. *)
Theorem GetUsers_agrees_with_GetAccountByID (s : PostgresStorage) (a : account) :
  consistent s ->
  exists users,
    PostgresStorage.GetUsers s = (Some users, None) /\
    List.length users = List.length (accounts s) /\
    NoDup (map ID users) /\
    (In a users <-> PostgresStorage.GetAccountByID s (ID a) = (a, None)).
Proof.
  intros Hc. exists (map scan_account (accounts s)).
  split; [reflexivity|]. split; [apply length_map|]. split.
  - rewrite map_map. simpl. exact (ids_unique Hc).
  - unfold PostgresStorage.GetAccountByID, sql.QueryRow. split.
    + intros Hin. apply in_map_iff in Hin as (r & <- & Hr). simpl.
      now rewrite (find_by_id _ _ (ids_unique Hc) Hr).
    + destruct (find _ _) as [r|] eqn:F; [|discriminate].
      intros H. inversion H as [Ha]. apply find_some in F as [Hr _].
      now apply in_map.
Qed.

Lemma GetUsers_agrees_with_GetAccountByID_witness :
  consistent example_store /\
  exists users,
    PostgresStorage.GetUsers example_store = (Some users, None) /\
    List.length users = List.length (accounts example_store) /\
    NoDup (map ID users) /\
    (In {| Email := ""; Password := ""; ID := 1; Name := "A";
           Number := "001"; Balance := 100 |} users <->
     PostgresStorage.GetAccountByID example_store 1
     = ({| Email := ""; Password := ""; ID := 1; Name := "A";
           Number := "001"; Balance := 100 |}, None)).
Proof.
  split; [exact consistent_example|].
  exact (@GetUsers_agrees_with_GetAccountByID example_store
           {| Email := ""; Password := ""; ID := 1; Name := "A";
              Number := "001"; Balance := 100 |} consistent_example).
Defined.

(** X13: in a store that keeps the key constraints, CheckAuth returns a nil
    error exactly when an account carries the email and
    bcrypt.CompareHashAndPassword accepts the password against the hash
    stored for it. *)
Theorem CheckAuth_accepts_iff {B : bcrypt.API} (s : PostgresStorage)
    (email password : string) :
  consistent s ->
  (PostgresStorage.CheckAuth s email password = None <->
   exists r, In r (accounts s) /\ r_email r = email /\
             bcrypt.CompareHashAndPassword (r_password r) password = None).
Proof.
  intros Hc. unfold PostgresStorage.CheckAuth, sql.QueryRow. split.
  - destruct (find _ _) as [r|] eqn:F; [|discriminate].
    apply find_some in F as [Hr He]. apply String.eqb_eq in He.
    destruct (bcrypt.CompareHashAndPassword _ _) eqn:C; [discriminate|].
    intros _. exists r. auto.
  - intros (r & Hr & <- & C).
    now rewrite (find_by_email _ _ (emails_unique Hc) Hr), C.
Qed.

Lemma CheckAuth_accepts_iff_witness :
  consistent example_store /\
  (@PostgresStorage.CheckAuth marker_hasher example_store "a@x.com" "secret"
     = None <->
   exists r, In r (accounts example_store) /\ r_email r = "a@x.com" /\
             @bcrypt.CompareHashAndPassword marker_hasher (r_password r)
               "secret" = None).
Proof.
  split; [exact consistent_example|].
  exact (@CheckAuth_accepts_iff marker_hasher example_store "a@x.com"
           "secret" consistent_example).
Defined.

(** ** The ids of a reachable store *)

Lemma ids_from_one (s : PostgresStorage) :
  reachable s ->
  1 <= accounts_id_seq s /\ Forall (fun r => 1 <= r_id r) (accounts s).
Proof.
  induction 1 as [|s a _ [Hs Hf]|s id _ [Hs Hf]|s a _ [Hs Hf]].
  - split; [simpl; lia | constructor].
  - destruct (CreateAccount_accounts s a) as [Hseq [Hsame|(_ & _ & Happ)]];
      cbv zeta in *; (split; [lia|]).
    + now rewrite Hsame.
    + rewrite Happ. apply Forall_app. split; [assumption|].
      repeat constructor. simpl. lia.
  - split; [assumption|]. simpl. apply Forall_forall. intros r Hr.
    apply filter_In in Hr as [Hr _]. rewrite Forall_forall in Hf. auto.
  - split; [assumption|]. simpl. apply Forall_map.
    eapply Forall_impl; [|exact Hf].
    intros r Hr. now destruct (sql.by_id (ID a) r).
Qed.

(** X14: in every store the operations reach from Init, the ids GetUsers
    lists are at least 1, below the value of the sequence and pairwise
    different; in particular no account has the id 0 of the zero account
    that GetAccountByID returns next to its error. *)
Theorem reachable_ids (s : PostgresStorage) :
  reachable s ->
  exists users,
    PostgresStorage.GetUsers s = (Some users, None) /\
    NoDup (map ID users) /\
    Forall (fun a => 1 <= ID a < accounts_id_seq s) users.
Proof.
  intros Hr. exists (map scan_account (accounts s)).
  pose proof (reachable_consistent Hr) as Hc.
  destruct (ids_from_one Hr) as [_ Hone].
  split; [reflexivity|]. split.
  - rewrite map_map. simpl. exact (ids_unique Hc).
  - apply Forall_map. apply Forall_forall. intros r Hin. simpl.
    pose proof (ids_below_seq Hc) as Hs.
    rewrite Forall_forall in Hs, Hone.
    pose proof (Hs r Hin). pose proof (Hone r Hin). lia.
Qed.

Lemma reachable_ids_witness :
  let s := fst (fst (PostgresStorage.CreateAccount fresh_store
                       {| Email := "a@x.com"; Password := "$2a$secret";
                          ID := 0; Name := "A"; Number := "001";
                          Balance := 100 |})) in
  reachable s /\
  exists users,
    PostgresStorage.GetUsers s = (Some users, None) /\
    NoDup (map ID users) /\
    Forall (fun a => 1 <= ID a < accounts_id_seq s) users.
Proof.
  cbv zeta.
  assert (Hr : reachable
                 (fst (fst (PostgresStorage.CreateAccount fresh_store
                       {| Email := "a@x.com"; Password := "$2a$secret";
                          ID := 0; Name := "A"; Number := "001";
                          Balance := 100 |})))).
  { apply reach_CreateAccount, reach_Init. }
  split; [exact Hr|].
  exact (reachable_ids Hr).
Defined.

(** * Further properties of the handlers *)



(** X16: the login endpoint, [makeHandler] around [handleLogin], never
    changes the store, and its status is 200 exactly when the body decoded
    and CheckAuth accepted the email and password; otherwise it is 401
    (CheckAuth refused) or 400 (the body did not decode).  Whether
    CreateToken returned an error plays no part. *)
Theorem login_endpoint {B : bcrypt.API} {T : TokenService}
    (s : PostgresStorage) (r : Request LoginRequest.t) :
  let srv := {| listenAddress := ":3000"; store := s |} in
  let out := makeHandler handleLogin srv NewResponseWriter r in
  fst out = srv /\
  (status (snd out) = Some StatusOK <->
   exists lr, Body r = inr lr /\
     PostgresStorage.CheckAuth s (LoginRequest.Email lr)
       (LoginRequest.Password lr) = None) /\
  (status (snd out) = Some StatusOK \/
   status (snd out) = Some StatusUnauthorized /\
     (exists lr, Body r = inr lr) \/
   status (snd out) = Some StatusBadRequest /\
     (exists err, Body r = inl err)).
Proof.
  cbv zeta. unfold makeHandler, handleLogin. simpl.
  destruct (Body r) as [err|lr] eqn:Hb; simpl.
  { split; [reflexivity|]. split.
    - split; [discriminate|]. intros (lr & H & _). discriminate.
    - right. right. eauto. }
  destruct (PostgresStorage.CheckAuth s _ _) as [err|] eqn:Hc; simpl.
  { split; [reflexivity|]. split.
    - split; [discriminate|]. intros (lr' & H & C). inversion H; subst.
      rewrite Hc in C. discriminate.
    - right. left. eauto. }
  destruct (CreateToken _) as [tokenString JWTerr]. simpl.
  split; [reflexivity|]. split.
  - split; [eauto | reflexivity].
  - left. reflexivity.
Qed.

(** X17: on a method other than GET, [handleGetAccountById] deletes: with a
    numeric id it answers 200 with the nil error of DeleteAccount, whether
    or not an account had the id, and afterwards GetAccountByID on the id
    finds no row. *)
Theorem delete_endpoint {B : bcrypt.API} (s : PostgresStorage) (R : Type)
    (r : Request R) (id : Z) :
  (Method r =? "GET")%string = false -> Vars_id r = inr id ->
  handleGetAccountById {| listenAddress := ":3000"; store := s |}
    NewResponseWriter r
  = ({| listenAddress := ":3000";
        store := fst (PostgresStorage.DeleteAccount s id) |},
     ok (V_error None), None) /\
  PostgresStorage.GetAccountByID (fst (PostgresStorage.DeleteAccount s id)) id
  = (account_zero, Some ErrNoRows).
Proof.
  intros Hm Hv. split.
  - unfold handleGetAccountById, handleDeleteAccount. rewrite Hm, Hv.
    reflexivity.
  - unfold PostgresStorage.GetAccountByID, sql.QueryRow. simpl.
    now rewrite find_filter_negb.
Qed.

Lemma delete_endpoint_witness :
  @handleGetAccountById _ (@PostgresStorage_Storage marker_hasher) unit
    {| listenAddress := ":3000"; store := example_store |}
    NewResponseWriter (on_account "DELETE" 1)
  = ({| listenAddress := ":3000";
        store := {| accounts := []; accounts_id_seq := 2 |} |},
     ok (V_error None), None).
Proof.
  exact (proj1 (@delete_endpoint marker_hasher example_store unit
                  (on_account "DELETE" 1) 1 eq_refl eq_refl)).
Defined.

(** X18: on a method other than GET and an id that is not a number,
    [handleGetAccountById] drops the error of [handleDeleteAccount]: it
    returns a nil error, writes nothing and leaves the server as it was, for
    every implementation of the storage. *)
Theorem delete_endpoint_swallows_bad_id {S : Type} {St : Storage.t S}
    (srv : Apiserver S) (w : ResponseWriter) (R : Type) (r : Request R)
    (err : error) :
  (Method r =? "GET")%string = false -> Vars_id r = inl err ->
  handleGetAccountById srv w r = (srv, w, None) /\
  handleDeleteAccount srv w r = (srv, w, Some err).
Proof.
  intros Hm Hv. unfold handleGetAccountById, handleDeleteAccount.
  rewrite Hm, Hv. split; reflexivity.
Qed.

Lemma delete_endpoint_swallows_bad_id_witness :
  @handleGetAccountById _ (@PostgresStorage_Storage marker_hasher) unit
    {| listenAddress := ":3000"; store := example_store |} NewResponseWriter
    {| Method := "DELETE"; Vars_id := inl Atoi_empty; Body := inr tt |}
  = ({| listenAddress := ":3000"; store := example_store |},
     NewResponseWriter, None).
Proof.
  exact (proj1 (@delete_endpoint_swallows_bad_id _
                  (@PostgresStorage_Storage marker_hasher)
                  {| listenAddress := ":3000"; store := example_store |}
                  NewResponseWriter unit
                  {| Method := "DELETE"; Vars_id := inl Atoi_empty;
                     Body := inr tt |}
                  Atoi_empty eq_refl eq_refl)).
Defined.

(** X19: on the route /account, which binds no id, [handleAccount] can only
    register: for every method but POST it returns an error and leaves the
    server and the response untouched; for GET the error is the one of
    [strconv.Atoi], for any other method it is "unsupported method". *)
Theorem handleAccount_without_id {S : Type} {St : Storage.t S}
    {B : bcrypt.API} (salt : string) (srv : Apiserver S) (w : ResponseWriter)
    (r : Request CreateAccountRequest.t) (err : error) :
  Vars_id r = inl err -> (Method r =? "POST")%string = false ->
  handleAccount salt srv w r
  = (srv, w,
     Some (if (Method r =? "GET")%string then err
           else Errorf "unsupported method")).
Proof.
  intros Hv Hm. unfold handleAccount, handleGetAccountById.
  destruct (Method r =? "GET")%string; [now rewrite Hv | now rewrite Hm].
Qed.

Lemma handleAccount_without_id_witness :
  @handleAccount _ (@PostgresStorage_Storage marker_hasher) marker_hasher
    "salt" {| listenAddress := ":3000"; store := example_store |}
    NewResponseWriter
    {| Method := "GET"; Vars_id := inl Atoi_empty;
       Body := inl (Foreign "EOF") |}
  = ({| listenAddress := ":3000"; store := example_store |},
     NewResponseWriter, Some Atoi_empty).
Proof.
  exact (@handleAccount_without_id _ (@PostgresStorage_Storage marker_hasher)
           marker_hasher "salt"
           {| listenAddress := ":3000"; store := example_store |}
           NewResponseWriter
           {| Method := "GET"; Vars_id := inl Atoi_empty;
              Body := inl (Foreign "EOF") |}
           Atoi_empty eq_refl eq_refl).
Defined.

(** ** ProtectedHandler *)

(** A header that starts with seven bytes is not empty and not too short,
    and its slice from the seventh byte on is the rest. *)
Lemma string_app_tail (p t : string) :
  String.length p = String.length "Bearer " ->
  ((p ++ t)%string =? "")%string = false /\
  (String.length (p ++ t) <? String.length "Bearer ")%nat = false /\
  string_drop (String.length "Bearer ") (p ++ t) = t.
Proof.
  intros Hp.
  do 7 (destruct p as [|? p]; [discriminate|]).
  destruct p; [|discriminate].
  repeat split.
Qed.

(** X20: [ProtectedHandler] does not run its handler when the token does
    not verify: without an Authorization header it answers 401 with
    "Missing authorization header", and with a header of seven bytes or more
    whose rest [verifyToken] refuses it answers 401 with "Invalid token: "
    and the error's text; in both cases the server is as it was, whatever
    the handler. *)
Theorem ProtectedHandler_rejects {S R : Type} {V : TokenVerifier}
    (fn : apiFunc S R) (authHeader : string) (srv : Apiserver S)
    (r : Request R) (err : error) :
  (String.length "Bearer " <= String.length authHeader)%nat ->
  verifyToken (string_drop (String.length "Bearer ") authHeader) = Some err ->
  ProtectedHandler fn "" srv NewResponseWriter r
  = Responded srv
      {| header := [("Content-Type", "application/json")];
         status := Some StatusUnauthorized;
         body := [Text "Missing authorization header"] |} /\
  ProtectedHandler fn authHeader srv NewResponseWriter r
  = Responded srv
      {| header := [("Content-Type", "application/json")];
         status := Some StatusUnauthorized;
         body := [Text ("Invalid token: " ++ Error err)] |}.
Proof.
  intros Hlen Hv. split; [reflexivity|].
  unfold ProtectedHandler. rewrite Hv.
  destruct authHeader as [|c rest]; [simpl in Hlen; lia|].
  replace (String.length (String c rest) <? String.length "Bearer ")%nat
    with false by (symmetry; apply Nat.ltb_ge; exact Hlen).
  reflexivity.
Qed.

Lemma ProtectedHandler_rejects_witness :
  @ProtectedHandler _ unit prefix_verifier
    (@handleGetAccountById _ (@PostgresStorage_Storage marker_hasher) unit)
    "Bearer forged"
    {| listenAddress := ":3000"; store := example_store |}
    NewResponseWriter (on_account "DELETE" 1)
  = Responded {| listenAddress := ":3000"; store := example_store |}
      {| header := [("Content-Type", "application/json")];
         status := Some StatusUnauthorized;
         body := [Text "Invalid token: token is malformed"] |}.
Proof.
  exact (proj2 (@ProtectedHandler_rejects _ unit prefix_verifier
                  (@handleGetAccountById _
                     (@PostgresStorage_Storage marker_hasher) unit)
                  "Bearer forged"
                  {| listenAddress := ":3000"; store := example_store |}
                  (on_account "DELETE" 1) (Foreign "token is malformed")
                  ltac:(simpl; lia) eq_refl)).
Defined.

(** X21: an Authorization header of one to six bytes makes
    [ProtectedHandler] panic in its slice expression: no response is
    written, and neither the verifier nor the handler is run. *)
Theorem ProtectedHandler_short_header_panics {S R : Type} {V : TokenVerifier}
    (fn : apiFunc S R) (authHeader : string) (srv : Apiserver S)
    (w : ResponseWriter) (r : Request R) :
  (0 < String.length authHeader < String.length "Bearer ")%nat ->
  ProtectedHandler fn authHeader srv w r = Panicked.
Proof.
  intros [Hpos Hlen]. unfold ProtectedHandler.
  destruct authHeader as [|c rest]; [simpl in Hpos; lia|].
  apply Nat.ltb_lt in Hlen. rewrite Hlen. reflexivity.
Qed.

Lemma ProtectedHandler_short_header_panics_witness :
  @ProtectedHandler _ unit prefix_verifier
    (@handleGetAccountById _ (@PostgresStorage_Storage marker_hasher) unit)
    "Bearer"
    {| listenAddress := ":3000"; store := example_store |}
    NewResponseWriter (on_account "GET" 1)
  = Panicked.
Proof.
  exact (@ProtectedHandler_short_header_panics _ unit prefix_verifier
           (@handleGetAccountById _
              (@PostgresStorage_Storage marker_hasher) unit)
           "Bearer"
           {| listenAddress := ":3000"; store := example_store |}
           NewResponseWriter (on_account "GET" 1)
           ltac:(simpl; lia)).
Defined.

(** X22: [ProtectedHandler] skips the first seven bytes of the header
    without looking at them: any seven bytes in the place of "Bearer " give
    the same outcome. *)
Theorem ProtectedHandler_ignores_scheme {S R : Type} {V : TokenVerifier}
    (fn : apiFunc S R) (scheme token : string) (srv : Apiserver S)
    (w : ResponseWriter) (r : Request R) :
  String.length scheme = String.length "Bearer " ->
  ProtectedHandler fn (scheme ++ token) srv w r
  = ProtectedHandler fn ("Bearer " ++ token) srv w r.
Proof.
  intros Hlen. unfold ProtectedHandler.
  destruct (string_app_tail scheme token Hlen) as (E1 & E2 & E3).
  destruct (string_app_tail "Bearer " token eq_refl) as (F1 & F2 & F3).
  rewrite E1, E2, E3, F1, F2, F3. reflexivity.
Qed.

Lemma ProtectedHandler_ignores_scheme_witness :
  @ProtectedHandler _ unit prefix_verifier
    (@handleGetAccountById _ (@PostgresStorage_Storage marker_hasher) unit)
    ("1234567" ++ "token:a@x.com")
    {| listenAddress := ":3000"; store := example_store |}
    NewResponseWriter (on_account "DELETE" 1)
  = @ProtectedHandler _ unit prefix_verifier
    (@handleGetAccountById _ (@PostgresStorage_Storage marker_hasher) unit)
    ("Bearer " ++ "token:a@x.com")
    {| listenAddress := ":3000"; store := example_store |}
    NewResponseWriter (on_account "DELETE" 1).
Proof.
  exact (@ProtectedHandler_ignores_scheme _ unit prefix_verifier
           (@handleGetAccountById _
              (@PostgresStorage_Storage marker_hasher) unit)
           "1234567" "token:a@x.com"
           {| listenAddress := ":3000"; store := example_store |}
           NewResponseWriter (on_account "DELETE" 1) eq_refl).
Defined.

(** X23: with a token that verifies, GET through [ProtectedHandler] answers
    200 with the four scanned columns of the account when the store, keeping
    its key constraints, has a row under the id, and 400 with the text of
    sql.ErrNoRows when it has none; the store is unchanged either way.  The
    Content-Type header is there twice, set by the wrapper and added again
    by [writeJSON]. *)
Theorem protected_fetch {B : bcrypt.API} {V : TokenVerifier}
    (s : PostgresStorage) (scheme token : string) (id : Z) :
  String.length scheme = String.length "Bearer " ->
  verifyToken token = None ->
  consistent s ->
  (forall r, In r (accounts s) -> r_id r = id ->
     ProtectedHandler handleGetAccountById (scheme ++ token)
       {| listenAddress := ":3000"; store := s |} NewResponseWriter
       (on_account "GET" id)
     = Responded {| listenAddress := ":3000"; store := s |}
         {| header := [("Content-Type", "application/json");
                       ("Content-Type", "application/json")];
            status := Some StatusOK;
            body := [JSON (V_account
                       {| Email := ""; Password := ""; ID := id;
                          Name := r_name r; Number := r_number r;
                          Balance := r_balance r |})] |}) /\
  (existsb (sql.by_id id) (accounts s) = false ->
     ProtectedHandler handleGetAccountById (scheme ++ token)
       {| listenAddress := ":3000"; store := s |} NewResponseWriter
       (on_account "GET" id)
     = Responded {| listenAddress := ":3000"; store := s |}
         {| header := [("Content-Type", "application/json");
                       ("Content-Type", "application/json")];
            status := Some StatusBadRequest;
            body := [JSON (V_ApiError "sql: no rows in result set")] |}).
Proof.
  intros Hlen Hv Hc.
  destruct (string_app_tail scheme token Hlen) as (E1 & E2 & E3).
  split.
  - intros r Hr Hid. unfold ProtectedHandler. rewrite E1, E2, E3, Hv.
    unfold handleGetAccountById. simpl.
    unfold PostgresStorage.GetAccountByID, sql.QueryRow.
    rewrite <- Hid, (find_by_id _ _ (ids_unique Hc) Hr). reflexivity.
  - intros Habsent. unfold ProtectedHandler. rewrite E1, E2, E3, Hv.
    unfold handleGetAccountById. simpl.
    unfold PostgresStorage.GetAccountByID, sql.QueryRow.
    rewrite (existsb_false_find _ _ Habsent). reflexivity.
Qed.

Lemma protected_fetch_witness :
  consistent example_store /\
  @ProtectedHandler _ unit prefix_verifier
    (@handleGetAccountById _ (@PostgresStorage_Storage marker_hasher) unit)
    ("Bearer " ++ "token:a@x.com")
    {| listenAddress := ":3000"; store := example_store |}
    NewResponseWriter (on_account "GET" 1)
  = Responded {| listenAddress := ":3000"; store := example_store |}
      {| header := [("Content-Type", "application/json");
                    ("Content-Type", "application/json")];
         status := Some StatusOK;
         body := [JSON (V_account
                    {| Email := ""; Password := ""; ID := 1; Name := "A";
                       Number := "001"; Balance := 100 |})] |}.
Proof.
  split; [exact consistent_example|].
  exact (proj1 (@protected_fetch marker_hasher prefix_verifier example_store
                  "Bearer " "token:a@x.com" 1 eq_refl eq_refl
                  consistent_example)
           _ example_row_In eq_refl).
Defined.

(** * Registration composed with the other operations *)

(** X24: after a registration, GetUsers returns the list it returned
    before followed by one more account: the id written back onto the
    entity with the request's name, number and balance. *)
Theorem register_then_list {B : bcrypt.API} (s s' : PostgresStorage)
    (salt : string) (req : CreateAccountRequest.t) (acc created : account) :
  NewAccount salt (CreateAccountRequest.Email req)
    (CreateAccountRequest.Password req) (CreateAccountRequest.Name req)
    (CreateAccountRequest.Number req) (CreateAccountRequest.Balance req)
    = inr acc ->
  PostgresStorage.CreateAccount s acc = (s', created, None) ->
  exists users,
    PostgresStorage.GetUsers s = (Some users, None) /\
    PostgresStorage.GetUsers s'
    = (Some (users ++
               [{| Email := ""; Password := ""; ID := ID created;
                   Name := CreateAccountRequest.Name req;
                   Number := CreateAccountRequest.Number req;
                   Balance := CreateAccountRequest.Balance req |}])%list,
       None).
Proof.
  intros Hnew Hcreate.
  apply NewAccount_ok in Hnew as (h & _ & ->).
  apply CreateAccount_ok in Hcreate as (_ & _ & Hacc & _ & ->).
  exists (map scan_account (accounts s)). split; [reflexivity|].
  unfold PostgresStorage.GetUsers. rewrite Hacc, map_app. reflexivity.
Qed.

Lemma register_then_list_witness :
  exists users,
    PostgresStorage.GetUsers fresh_store = (Some users, None) /\
    PostgresStorage.GetUsers
      (fst (fst (PostgresStorage.CreateAccount fresh_store
                   {| Email := "a@x.com"; Password := "$2a$secret"; ID := 0;
                      Name := "A"; Number := "001"; Balance := 100 |})))
    = (Some (users ++
               [{| Email := ""; Password := ""; ID := 1; Name := "A";
                   Number := "001"; Balance := 100 |}])%list,
       None).
Proof.
  exact (@register_then_list marker_hasher fresh_store _ "salt"
           example_request _ _ eq_refl eq_refl).
Defined.

(** X25: deleting the account a CreateAccount has just inserted gives back
    the table as it was before the insertion; only the sequence has moved
    on by one. *)
Theorem create_then_delete (s s' : PostgresStorage) (a created : account) :
  PostgresStorage.CreateAccount s a = (s', created, None) ->
  PostgresStorage.DeleteAccount s' (ID created)
  = ({| accounts := accounts s; accounts_id_seq := accounts_id_seq s + 1 |},
     None).
Proof.
  intros Hcreate.
  apply CreateAccount_ok in Hcreate as (Hid & _ & Hacc & Hseq & ->).
  unfold PostgresStorage.DeleteAccount. simpl. rewrite Hacc, Hseq.
  rewrite filter_app. simpl. unfold sql.by_id at 2. simpl.
  rewrite Z.eqb_refl. simpl. rewrite app_nil_r.
  rewrite filter_all; [reflexivity|].
  intros r Hr. now rewrite (existsb_false_In _ _ Hid r Hr).
Qed.

Lemma create_then_delete_witness :
  PostgresStorage.DeleteAccount
    (fst (fst (PostgresStorage.CreateAccount example_store
                 {| Email := "b@x.com"; Password := "$2a$pw"; ID := 0;
                    Name := "B"; Number := "002"; Balance := 7 |}))) 2
  = ({| accounts := accounts example_store; accounts_id_seq := 3 |}, None).
Proof.
  exact (@create_then_delete example_store _
           {| Email := "b@x.com"; Password := "$2a$pw"; ID := 0; Name := "B";
              Number := "002"; Balance := 7 |} _ eq_refl).
Defined.
